(** * coffeine.transfer_learning: shape normalisation, ReCenter and ReScale

    A shallow embedding of [coffeine/transfer_learning.py].

    - Python exceptions are an error monad ([result]); a method of a mutable
      instance is a function from the instance to the instance after the call
      paired with the outcome ([method]), so that the attributes written
      before an exception is raised stay written.
    - A numpy array is its shape and its row-major entries.  An object-typed
      array holds, in every cell, the array [np.asanyarray] makes of the cell.
      Entries are rationals: no function of the module inspects an entry.
    - The estimators of pyRiemann ([encode_domains], [TLCenter], [TLStretch])
      are not part of the module.  The two classes are defined over them as
      section variables; a model of them ([pyriemann]) follows the documented
      contract, over the manifold primitives taken as parameters, and
      [OneChannel] instantiates it on 1x1 matrices. *)

From stdpp Require Import base option list strings gmap.
From Stdlib Require Import QArith Qreduction.

Local Open Scope nat_scope.
Set Warnings "-register-all".

(** ** Python exceptions *)

Inductive exn :=
  | AttributeError | IndexError | ValueError | AssertionError
  | TypeError | KeyError.

Inductive result (A : Type) :=
  | Ok (a : A)
  | Raise (e : exn).
Arguments Ok {A} a.
Arguments Raise {A} e.

#[global] Instance result_ret : MRet result := λ A a, Ok a.
#[global] Instance result_bind : MBind result := λ A B f r,
  match r with
  | Ok a => f a
  | Raise e => Raise e
  end.

Definition succeeds {A} (r : result A) : bool :=
  match r with Ok _ => true | Raise _ => false end.

(** A method of a mutable instance of class [S]. *)
Definition method (S A : Type) : Type := S → S * result A.

#[global] Instance method_ret {S} : MRet (method S) := λ A a self, (self, Ok a).
#[global] Instance method_bind {S} : MBind (method S) := λ A B f m self,
  match m self with
  | (self', Ok a) => f a self'
  | (self', Raise e) => (self', Raise e)
  end.

Definition lift {S A} (r : result A) : method S A := λ self, (self, r).
Definition get_self {S} : method S S := λ self, (self, Ok self).
Definition set_self {S} (f : S → S) : method S () := λ self, (f self, Ok ()).

Definition state_after {S A} (r : S * result A) : S := fst r.
Definition outcome {S A} (r : S * result A) : result A := snd r.

(** ** The fragment of numpy the module uses *)

Module np.

Inductive dtype := float64 | object.

Inductive ndarray :=
  | NumArr (shape : list nat) (data : list Q)
  | ObjArr (shape : list nat) (cells : list ndarray).

Definition shape (a : ndarray) : list nat :=
  match a with NumArr s _ | ObjArr s _ => s end.

Definition ndim (a : ndarray) : nat := length (shape a).

Definition dtype_of (a : ndarray) : dtype :=
  match a with NumArr _ _ => float64 | ObjArr _ _ => object end.

Definition is_object (a : ndarray) : bool :=
  match a with NumArr _ _ => false | ObjArr _ _ => true end.

(** [a.shape[i]] *)
Definition shape_at (a : ndarray) (i : nat) : result nat :=
  match shape a !! i with
  | Some n => Ok n
  | None => Raise IndexError
  end.

(** A 0-d array holding one number. *)
Definition scalar (q : Q) : ndarray := NumArr [] [q].

Definition size_of (s : list nat) : nat := foldr Nat.mul 1 s.

Fixpoint chunks {A} (k n : nat) (l : list A) : list (list A) :=
  match n with
  | 0 => []
  | S n' => take k l :: chunks k n' (drop k l)
  end.

(** Iteration over an array: its sub-arrays along the first axis.  A 1-d
    object array yields its cells, a 1-d numeric array its numbers. *)
Definition items (a : ndarray) : result (list ndarray) :=
  match a with
  | NumArr [] _ | ObjArr [] _ => Raise TypeError
  | NumArr [n] data => Ok (scalar <$> take n data)
  | ObjArr [n] cells => Ok (take n cells)
  | NumArr (n :: rest) data => Ok (NumArr rest <$> chunks (size_of rest) n data)
  | ObjArr (n :: rest) cells => Ok (ObjArr rest <$> chunks (size_of rest) n cells)
  end.

(** The entries of an array as cells of an object array. *)
Definition as_cells (a : ndarray) : list ndarray :=
  match a with
  | NumArr _ data => scalar <$> data
  | ObjArr _ cells => cells
  end.

Definition num_data (a : ndarray) : list Q :=
  match a with
  | NumArr _ data => data
  | ObjArr _ _ => []
  end.

(** [np.stack] of a non-empty sequence of arrays of one shape, along a new
    first axis; the result is numeric when every array is. *)
Definition stack_seq (arrays : list ndarray) : result ndarray :=
  match arrays with
  | [] => Raise ValueError
  | a0 :: _ =>
      if forallb (λ a, bool_decide (shape a = shape a0)) arrays then
        let s := length arrays :: shape a0 in
        if forallb (λ a, negb (is_object a)) arrays
        then Ok (NumArr s (arrays ≫= num_data))
        else Ok (ObjArr s (arrays ≫= as_cells))
      else Raise ValueError
  end.

(** [np.stack(values)] for an array [values]: the sequence is the iteration
    over [values]. *)
Definition stack (values : ndarray) : result ndarray :=
  arrays ← items values; stack_seq arrays.

(** [values[:, 0]] *)
Definition index_col0 (values : ndarray) : result ndarray :=
  match shape values with
  | n :: m :: rest =>
      if bool_decide (m = 0) then Raise IndexError
      else
        let row := m * size_of rest in
        match values with
        | NumArr _ data =>
            Ok (NumArr (n :: rest) (chunks row n data ≫= take (size_of rest)))
        | ObjArr _ cells =>
            Ok (ObjArr (n :: rest) (chunks row n cells ≫= take (size_of rest)))
        end
  | _ => Raise IndexError
  end.

(** [out[np.newaxis, :, :]] on a 2-d array *)
Definition newaxis (a : ndarray) : ndarray :=
  match a with
  | NumArr s data => NumArr (1 :: s) data
  | ObjArr s cells => ObjArr (1 :: s) cells
  end.

End np.

Export np (ndarray, NumArr, ObjArr).

(** ** The inputs of [_check_data]

    [X] is a numpy array, a pandas DataFrame or a pandas Series.  A DataFrame
    has [ndim = 2]; its [.values] is the 2-d array of its cells, object-typed
    as soon as one column is.  A Series has [ndim = 1]; its [.values] is the
    1-d array of its cells. *)

Inductive DataFrame :=
  | FrameNum (n m : nat) (data : list Q)
  | FrameObj (n m : nat) (cells : list ndarray).

Definition values (X : DataFrame) : ndarray :=
  match X with
  | FrameNum n m data => NumArr [n; m] data
  | FrameObj n m cells => ObjArr [n; m] cells
  end.

Inductive Series :=
  | SeriesNum (n : nat) (data : list Q)
  | SeriesObj (n : nat) (cells : list ndarray).

Definition series_values (X : Series) : ndarray :=
  match X with
  | SeriesNum n data => NumArr [n] data
  | SeriesObj n cells => ObjArr [n] cells
  end.

Inductive input :=
  | Array (a : ndarray)
  | Frame (df : DataFrame)
  | PdSeries (s : Series).

Definition input_ndim (X : input) : nat :=
  match X with
  | Array a => np.ndim a
  | Frame _ => 2
  | PdSeries _ => 1
  end.

(** [X.values]: an ndarray has no such attribute. *)
Definition input_values (X : input) : result ndarray :=
  match X with
  | Array _ => Raise AttributeError
  | Frame df => Ok (values df)
  | PdSeries s => Ok (series_values s)
  end.

(** [out = X] in the branch [X.ndim == 3]: there [X] is an ndarray, a
    DataFrame having two dimensions and a Series one. *)
Definition as_ndarray (X : input) : option ndarray :=
  match X with
  | Array a => Some a
  | Frame _ | PdSeries _ => None
  end.

(** [_check_data]; the [None] of the result is Python's [None], the initial
    value of [out]. *)
Definition _check_data (X : input) : result (option ndarray) :=
  if bool_decide (input_ndim X = 3) then Ok (as_ndarray X)
  else
    vals ← input_values X;
    if np.is_object vals then
      cols ← np.shape_at vals 1;
      vals ← (if bool_decide (cols = 1) then np.index_col0 vals else Ok vals);
      out ← np.stack vals;
      if bool_decide (np.ndim out = 2) then
        r ← np.shape_at out 0;
        c ← np.shape_at out 1;
        if bool_decide (r = c) then Ok (Some (np.newaxis out))
        else Raise AssertionError
      else Ok (Some out)
    else Ok None.

(** ** Estimator objects of pyRiemann

    The combined key of a sample pairs its domain tag with its label
    ([encode_domains] writes it ['domain/label']). *)

Definition key : Type := string * Z.

Record TLCenter := mkTLCenter {
  tlc_target_domain : string;
  tlc_metric : string;
  recenter_ : option (gmap string ndarray)
}.

Record TLStretch := mkTLStretch {
  tls_target_domain : string;
  tls_centered_data : bool;
  tls_metric : string;
  tls_means : option (gmap string ndarray);
  dispersions_ : option (gmap string Q)
}.

(** [TLCenter(target_domain, metric=metric)] *)
Definition new_TLCenter (target_domain metric : string) : TLCenter :=
  mkTLCenter target_domain metric None.

(** [TLStretch(target_domain, centered_data=centered_data, metric=metric)] *)
Definition new_TLStretch (target_domain : string) (centered_data : bool)
    (metric : string) : TLStretch :=
  mkTLStretch target_domain centered_data metric None None.

(** Reading an attribute that [fit] sets. *)
Definition attr {A} (a : option A) : result A :=
  match a with
  | Some v => Ok v
  | None => Raise AttributeError
  end.

(** [X.shape[0]] where [X] is what [_check_data] returned. *)
Definition shape0 (X : option ndarray) : result nat :=
  a ← attr X; np.shape_at a 0.

(** ** ReCenter and ReScale *)

Record ReCenter := mkReCenter {
  rc_domains : list string;
  rc_metric : string;
  re_center_ : option TLCenter;
  means_ : option (gmap string ndarray)
}.

Record ReScale := mkReScale {
  rs_domains : list string;
  rs_metric : string;
  re_scale_ : option TLStretch;
  rs_dispersions_ : option (gmap string Q)
}.

(** [ReCenter(domains, metric)] and [ReScale(domains, metric)] *)
Definition new_ReCenter (domains : list string) (metric : string) : ReCenter :=
  mkReCenter domains metric None None.
Definition new_ReScale (domains : list string) (metric : string) : ReScale :=
  mkReScale domains metric None None.

Definition set_re_center_ (est : TLCenter) (self : ReCenter) : ReCenter :=
  mkReCenter (rc_domains self) (rc_metric self) (Some est) (means_ self).
Definition set_means_ (m : gmap string ndarray) (self : ReCenter) : ReCenter :=
  mkReCenter (rc_domains self) (rc_metric self) (re_center_ self) (Some m).
Definition set_re_scale_ (est : TLStretch) (self : ReScale) : ReScale :=
  mkReScale (rs_domains self) (rs_metric self) (Some est) (rs_dispersions_ self).
Definition set_dispersions_ (d : gmap string Q) (self : ReScale) : ReScale :=
  mkReScale (rs_domains self) (rs_metric self) (re_scale_ self) (Some d).

(** A method called on the estimator held in [self.re_center_]: the estimator
    is mutated in place, so the instance sees it after the call. *)
Definition on_re_center_ {A} (m : method TLCenter A) : method ReCenter A :=
  λ self,
    match re_center_ self with
    | Some est => let '(est', r) := m est in (set_re_center_ est' self, r)
    | None => (self, Raise AttributeError)
    end.

Definition on_re_scale_ {A} (m : method TLStretch A) : method ReScale A :=
  λ self,
    match re_scale_ self with
    | Some est => let '(est', r) := m est in (set_re_scale_ est' self, r)
    | None => (self, Raise AttributeError)
    end.

Definition target_domain : string := "target_domain".

Section Classes.

(** The functions and methods imported from [pyriemann.transfer]. *)
Variable encode_domains :
    option ndarray → list Z → list string → result (list key).
Variable TLCenter_fit : option ndarray → list key → method TLCenter ().
Variable TLCenter_fit_transform :
    option ndarray → list key → method TLCenter ndarray.
Variable TLStretch_fit : option ndarray → list key → method TLStretch ().
Variable TLStretch_transform : option ndarray → method TLStretch ndarray.
Variable TLStretch_fit_transform :
    option ndarray → list key → method TLStretch ndarray.

(** Every method starts with [X = _check_data(X)]; the lines after it are
    the [_body] of the method, a function of what [_check_data] returned. *)

(** [ReCenter.fit]; the instance after the call is the [self] returned. *)
Definition ReCenter_fit_body (X : option ndarray) (y : list Z)
    : method ReCenter () :=
  self ← get_self;
  y_enc ← lift (encode_domains X y (rc_domains self));
  set_self (set_re_center_ (new_TLCenter target_domain (rc_metric self)));;
  on_re_center_ (TLCenter_fit X y_enc);;
  self ← get_self;
  est ← lift (attr (re_center_ self));
  m ← lift (attr (recenter_ est));
  set_self (set_means_ m).

Definition ReCenter_fit (X : input) (y : list Z) : method ReCenter () :=
  X ← lift (_check_data X);
  ReCenter_fit_body X y.

Definition ReCenter_transform_body (X : option ndarray) (y : option (list Z))
    : method ReCenter ndarray :=
  n_sample ← lift (shape0 X);
  y_enc ← lift (encode_domains X (replicate n_sample 0%Z)
                  (replicate n_sample target_domain));
  self ← get_self;
  set_self (set_re_center_ (new_TLCenter target_domain (rc_metric self)));;
  X_rct ← on_re_center_ (TLCenter_fit_transform X y_enc);
  mret X_rct.

Definition ReCenter_transform (X : input) (y : option (list Z))
    : method ReCenter ndarray :=
  X ← lift (_check_data X);
  ReCenter_transform_body X y.

Definition ReCenter_fit_transform_body (X : option ndarray) (y : list Z)
    : method ReCenter ndarray :=
  self ← get_self;
  y_enc ← lift (encode_domains X y (rc_domains self));
  set_self (set_re_center_ (new_TLCenter target_domain (rc_metric self)));;
  X_rct ← on_re_center_ (TLCenter_fit_transform X y_enc);
  mret X_rct.

Definition ReCenter_fit_transform (X : input) (y : list Z)
    : method ReCenter ndarray :=
  X ← lift (_check_data X);
  ReCenter_fit_transform_body X y.

Definition ReScale_fit_body (X : option ndarray) (y : list Z)
    : method ReScale () :=
  self ← get_self;
  y_enc ← lift (encode_domains X y (rs_domains self));
  set_self (set_re_scale_
              (new_TLStretch target_domain false (rs_metric self)));;
  on_re_scale_ (TLStretch_fit X y_enc);;
  self ← get_self;
  est ← lift (attr (re_scale_ self));
  d ← lift (attr (dispersions_ est));
  set_self (set_dispersions_ d).

Definition ReScale_fit (X : input) (y : list Z) : method ReScale () :=
  X ← lift (_check_data X);
  ReScale_fit_body X y.

Definition ReScale_transform_body (X : option ndarray) (y : option (list Z))
    : method ReScale ndarray :=
  n_sample ← lift (shape0 X);
  y_enc ← lift (encode_domains X (replicate n_sample 0%Z)
                  (replicate n_sample target_domain));
  self ← get_self;
  set_self (set_re_scale_
              (new_TLStretch target_domain false (rs_metric self)));;
  on_re_scale_ (TLStretch_fit X y_enc);;
  X_str ← on_re_scale_ (TLStretch_transform X);
  mret X_str.

Definition ReScale_transform (X : input) (y : option (list Z))
    : method ReScale ndarray :=
  X ← lift (_check_data X);
  ReScale_transform_body X y.

Definition ReScale_fit_transform_body (X : option ndarray) (y : list Z)
    : method ReScale ndarray :=
  self ← get_self;
  y_enc ← lift (encode_domains X y (rs_domains self));
  set_self (set_re_scale_
              (new_TLStretch target_domain false (rs_metric self)));;
  X_str ← on_re_scale_ (TLStretch_fit_transform X y_enc);
  mret X_str.

Definition ReScale_fit_transform (X : input) (y : list Z)
    : method ReScale ndarray :=
  X ← lift (_check_data X);
  ReScale_fit_transform_body X y.

(** The keys [transform] builds: every sample tagged with the synthetic
    target domain and the placeholder label 0. *)
Definition target_keys (X : option ndarray) : result (list key) :=
  n_sample ← shape0 X;
  encode_domains X (replicate n_sample 0%Z) (replicate n_sample target_domain).

(** A call on an instance, and the instance after a sequence of calls. *)
Inductive call :=
  | CallFit (X : input) (y : list Z)
  | CallTransform (X : input) (y : option (list Z))
  | CallFitTransform (X : input) (y : list Z).

Definition ReCenter_call (c : call) (self : ReCenter) : ReCenter :=
  match c with
  | CallFit X y => state_after (ReCenter_fit X y self)
  | CallTransform X y => state_after (ReCenter_transform X y self)
  | CallFitTransform X y => state_after (ReCenter_fit_transform X y self)
  end.

Definition ReCenter_calls (h : list call) (self : ReCenter) : ReCenter :=
  foldl (λ s c, ReCenter_call c s) self h.

Definition ReScale_call (c : call) (self : ReScale) : ReScale :=
  match c with
  | CallFit X y => state_after (ReScale_fit X y self)
  | CallTransform X y => state_after (ReScale_transform X y self)
  | CallFitTransform X y => state_after (ReScale_fit_transform X y self)
  end.

Definition ReScale_calls (h : list call) (self : ReScale) : ReScale :=
  foldl (λ s c, ReScale_call c s) self h.

End Classes.

(** ** A model of [pyriemann.transfer]

    Modelled from the spec: the functions and estimators of pyRiemann, which
    are no part of the module.  The model follows the contract of the
    collaborator: [encode_domains] pairs each sample's domain tag with its
    label, the sample count being taken from [X]; the mean estimator groups
    the samples by domain, computes one mean per domain, and re-centers each
    sample by the mean of its own domain; the stretch estimator does the same
    with one dispersion per domain, around the identity when the data is
    declared centered and around the mean of the domain otherwise, and its
    [transform] rescales by the statistics of the target domain.  The
    geometry itself (mean, congruence, distance, geodesic) is a parameter. *)

Module pyriemann.

(** [X[i]] and iteration need an array: [None] is not subscriptable. *)
Definition subscriptable (X : option ndarray) : result ndarray :=
  match X with
  | Some a => Ok a
  | None => Raise TypeError
  end.

(** [len(X)] *)
Definition len (X : option ndarray) : result nat :=
  a ← subscriptable X;
  match np.shape a with
  | n :: _ => Ok n
  | [] => Raise TypeError
  end.

Definition encode_domains (X : option ndarray) (y : list Z)
    (domain : list string) : result (list key) :=
  n ← len X;
  if bool_decide (length y = n) && bool_decide (length domain = n)
  then Ok (zip domain y)
  else Raise ValueError.

(** The domains of [decode_domains]. *)
Definition decode_domains (y_enc : list key) : list string := y_enc.*1.

(** [X[domains == d]] *)
Definition select (d : string) (domains : list string) (mats : list ndarray)
    : list ndarray :=
  (filter (λ p, p.1 = d) (zip domains mats)).*2.

(** One statistic per domain present: [{d: f(X[domains == d])}] over
    [np.unique(domains)]. *)
Definition per_domain {V} (f : list ndarray → V) (domains : list string)
    (mats : list ndarray) : gmap string V :=
  list_to_map ((λ d, (d, f (select d domains mats))) <$> domains).

(** The samples of [X], one per encoded key. *)
Definition samples (X : option ndarray) (y_enc : list key)
    : result (list ndarray) :=
  a ← subscriptable X;
  mats ← np.items a;
  if bool_decide (length mats = length y_enc) then Ok mats
  else Raise IndexError.

(** An array shaped like [a] holding the matrices [mats]. *)
Definition like (a : ndarray) (mats : list ndarray) : ndarray :=
  NumArr (np.shape a) (mats ≫= np.num_data).

Definition lookup_domain {V} (d : string) (m : gmap string V) : result V :=
  match m !! d with
  | Some v => Ok v
  | None => Raise KeyError
  end.

Definition sum_Q (l : list Q) : Q := foldr Qplus 0%Q l.

(** The average of a list of numbers, in lowest terms. *)
Definition average (l : list Q) : Q :=
  Qred (sum_Q l / inject_Z (Z.of_nat (length l))).

Definition set_recenter_ (m : gmap string ndarray) (self : TLCenter) : TLCenter :=
  mkTLCenter (tlc_target_domain self) (tlc_metric self) (Some m).

Definition set_fitted (means : gmap string ndarray) (disp : gmap string Q)
    (self : TLStretch) : TLStretch :=
  mkTLStretch (tls_target_domain self) (tls_centered_data self)
    (tls_metric self) (Some means) (Some disp).

Section Manifold.

(** [mean_covariance(X, metric)]: the mean of a set of matrices. *)
Variable mean_covariance : string → list ndarray → ndarray.
(** [congruence M S] is [M^(-1/2) S M^(-1/2)]. *)
Variable congruence : ndarray → ndarray → ndarray.
(** The identity matrix of a given dimension. *)
Variable eye : nat → ndarray.
(** [distance_sq metric S M]: the squared distance between two matrices. *)
Variable distance_sq : string → ndarray → ndarray → Q.
(** [stretch metric M d S]: [S] moved along the geodesic from [M] towards
      [S] by the factor [1/sqrt(d)]. *)
Variable stretch : string → ndarray → Q → ndarray → ndarray.

Definition TLCenter_fit (X : option ndarray) (y_enc : list key)
      : method TLCenter () :=
    self ← get_self;
    mats ← lift (samples X y_enc);
    set_self (set_recenter_
      (per_domain (mean_covariance (tlc_metric self))
         (decode_domains y_enc) mats)).

(** Each sample re-centered by the mean of its own domain. *)
Definition recenter_each (means : gmap string ndarray)
      (domains : list string) (mats : list ndarray) : result (list ndarray) :=
    mapM (λ p, M ← lookup_domain p.1 means; Ok (congruence M p.2))
         (zip domains mats).

Definition TLCenter_fit_transform (X : option ndarray) (y_enc : list key)
      : method TLCenter ndarray :=
    TLCenter_fit X y_enc;;
    self ← get_self;
    means ← lift (attr (recenter_ self));
    a ← lift (subscriptable X);
    mats ← lift (samples X y_enc);
    X_rct ← lift (recenter_each means (decode_domains y_enc) mats);
    mret (like a X_rct).

(** The dispersion of a set of matrices around [M]: the average squared
      distance to [M]. *)
Definition dispersion (metric : string) (M : ndarray) (mats : list ndarray)
      : Q :=
    average ((λ S, distance_sq metric S M) <$> mats).

(** The point a domain is taken to be centered at. *)
Definition center (centered_data : bool) (metric : string) (n_dim : nat)
      (mats : list ndarray) : ndarray :=
    if centered_data then eye n_dim else mean_covariance metric mats.

Definition TLStretch_fit (X : option ndarray) (y_enc : list key)
      : method TLStretch () :=
    self ← get_self;
    mats ← lift (samples X y_enc);
    first ← lift (match mats !! 0 with
                  | Some X0 => Ok X0
                  | None => Raise IndexError
                  end);
    n_dim ← lift (np.shape_at first 1);
    let c := center (tls_centered_data self) (tls_metric self) n_dim in
    set_self (set_fitted
      (per_domain c (decode_domains y_enc) mats)
      (per_domain (λ g, dispersion (tls_metric self) (c g) g)
         (decode_domains y_enc) mats)).

Definition TLStretch_transform (X : option ndarray)
      : method TLStretch ndarray :=
    self ← get_self;
    disp ← lift (attr (dispersions_ self));
    means ← lift (attr (tls_means self));
    M ← lift (lookup_domain (tls_target_domain self) means);
    d ← lift (lookup_domain (tls_target_domain self) disp);
    a ← lift (subscriptable X);
    mats ← lift (np.items a);
    mret (like a (stretch (tls_metric self) M d <$> mats)).

(** Each sample rescaled by the statistics of its own domain. *)
Definition stretch_each (metric : string) (means : gmap string ndarray)
      (disp : gmap string Q) (domains : list string) (mats : list ndarray)
      : result (list ndarray) :=
    mapM (λ p, M ← lookup_domain p.1 means;
               d ← lookup_domain p.1 disp;
               Ok (stretch metric M d p.2))
         (zip domains mats).

Definition TLStretch_fit_transform (X : option ndarray) (y_enc : list key)
      : method TLStretch ndarray :=
    TLStretch_fit X y_enc;;
    self ← get_self;
    disp ← lift (attr (dispersions_ self));
    means ← lift (attr (tls_means self));
    a ← lift (subscriptable X);
    mats ← lift (samples X y_enc);
    X_str ← lift (stretch_each (tls_metric self) means disp
                    (decode_domains y_enc) mats);
    mret (like a X_str).

End Manifold.

End pyriemann.

(** ** One-channel Euclidean geometry

    The manifold primitives on stacks of 1x1 matrices under the Euclidean
    metric, in exact arithmetic: the mean is the arithmetic mean, the
    congruence [M^(-1/2) S M^(-1/2)] is [S / M], and the squared distance is
    the square of the difference.  It gives the concrete inputs on which the
    statements below are evaluated. *)

Module OneChannel.

Definition mat (q : Q) : ndarray := NumArr [1; 1] [q].

Definition entry (a : ndarray) : Q :=
  match np.num_data a with
  | q :: _ => q
  | [] => 0%Q
  end.

Definition mean_covariance (metric : string) (mats : list ndarray) : ndarray :=
  mat (pyriemann.average (entry <$> mats)).

Definition congruence (M X : ndarray) : ndarray :=
  mat (Qred (entry X / entry M)).

Definition eye (n : nat) : ndarray :=
  NumArr [n; n]
    (flat_map (λ i, (λ j, if bool_decide (i = j) then 1%Q else 0%Q) <$> seq 0 n)
       (seq 0 n)).

Definition distance_sq (metric : string) (X M : ndarray) : Q :=
  Qred ((entry X - entry M) * (entry X - entry M)).

(** The square root of a rational, exact on the squares of rationals. *)
Definition sqrt_Q (q : Q) : Q :=
  let r := Qred q in Z.sqrt (Qnum r) # Pos.sqrt (Qden r).

(** The point of the line from [M] to [X] at the factor [1/sqrt(d)]. *)
Definition stretch (metric : string) (M : ndarray) (d : Q) (X : ndarray)
    : ndarray :=
  mat (Qred (entry M + (entry X - entry M) / sqrt_Q d)).

(** A stack of [n] one-channel matrices. *)
Definition stack1 (qs : list Q) : ndarray := NumArr [length qs; 1; 1] qs.

Definition encode_domains := pyriemann.encode_domains.
Definition TLCenter_fit := pyriemann.TLCenter_fit mean_covariance.
Definition TLCenter_fit_transform :=
  pyriemann.TLCenter_fit_transform mean_covariance congruence.
Definition TLStretch_fit :=
  pyriemann.TLStretch_fit mean_covariance eye distance_sq.
Definition TLStretch_transform := pyriemann.TLStretch_transform stretch.
Definition TLStretch_fit_transform :=
  pyriemann.TLStretch_fit_transform mean_covariance eye distance_sq stretch.

(** The Riemannian mean of 1x1 matrices is the geometric mean of their
    entries.  [root_Z n z] is the largest [k] with [k^n <= z], so the mean is
    exact when the product of the entries is an [n]-th power. *)
Fixpoint root_search (fuel n : nat) (z k : Z) : Z :=
  match fuel with
  | 0 => k
  | S fuel' =>
      if ((k + 1) ^ Z.of_nat n <=? z)%Z then root_search fuel' n z (k + 1)%Z
      else k
  end.

Definition root_Z (n : nat) (z : Z) : Z := root_search (Z.to_nat z) n z 0%Z.

Definition root_Q (n : nat) (q : Q) : Q :=
  let r := Qred q in
  root_Z n (Qnum r) # Z.to_pos (root_Z n (Zpos (Qden r))).

Definition prod_Q (l : list Q) : Q := foldr Qmult 1%Q l.

Definition mean_riemann (mats : list ndarray) : ndarray :=
  mat (Qred (root_Q (length mats) (prod_Q (entry <$> mats)))).

(** The stretch estimator takes the Riemannian mean of a domain whatever its
    metric, the metric being that of the distance. *)
Definition TLStretch_fit_riemann :=
  pyriemann.TLStretch_fit (λ _ : string, mean_riemann) eye distance_sq.

Definition fit := ReCenter_fit encode_domains TLCenter_fit.
Definition transform := ReCenter_transform encode_domains TLCenter_fit_transform.
Definition fit_transform :=
  ReCenter_fit_transform encode_domains TLCenter_fit_transform.
Definition scale_fit := ReScale_fit encode_domains TLStretch_fit.
Definition scale_transform :=
  ReScale_transform encode_domains TLStretch_fit TLStretch_transform.
Definition scale_fit_transform :=
  ReScale_fit_transform encode_domains TLStretch_fit_transform.
Definition riemann_scale_fit := ReScale_fit encode_domains TLStretch_fit_riemann.

End OneChannel.

(** The stack built from an object-typed frame: [np.stack] of its values, the
    column axis dropped when there is one column. *)
Definition stacked_values (df : DataFrame) : result ndarray :=
  cols ← np.shape_at (values df) 1;
  vals ← (if bool_decide (cols = 1) then np.index_col0 (values df)
          else Ok (values df));
  np.stack vals.


(** ** Concrete inputs *)

Module Examples.

Definition I2 : ndarray := NumArr [2; 2] [1%Q; 0%Q; 0%Q; 1%Q].
Definition C2 : ndarray := NumArr [2; 2] [2%Q; 1%Q; 1%Q; 2%Q].

(** A bare 2x2 matrix, and a stack of two. *)
Definition bare_matrix : input := Array C2.
Definition stack_of_two : ndarray :=
  NumArr [2; 2; 2] [1%Q; 0%Q; 0%Q; 1%Q; 2%Q; 1%Q; 1%Q; 2%Q].

(** One column whose two cells are the rows of a 2x2 matrix. *)
Definition frame_of_rows : DataFrame :=
  FrameObj 2 1 [NumArr [2] [2%Q; 1%Q]; NumArr [2] [1%Q; 2%Q]].

(** Three samples, two columns of matrices each. *)
Definition frame_3x2 : DataFrame := FrameObj 3 2 [I2; C2; I2; C2; I2; C2].

(** Two samples, two columns of matrices each. *)
Definition frame_2x2 : DataFrame := FrameObj 2 2 [I2; C2; C2; I2].

(** A frame of numbers. *)
Definition frame_numeric : DataFrame := FrameNum 2 2 [1%Q; 0%Q; 0%Q; 1%Q].

(** One-channel training data of two domains, and data of an unseen one. *)
Definition euclid : string := "euclid".
Definition train_mats : list ndarray :=
  [OneChannel.mat 2; OneChannel.mat 4; OneChannel.mat 6; OneChannel.mat 10].
Definition train_stack : ndarray :=
  OneChannel.stack1 [2%Q; 4%Q; 6%Q; 10%Q].
Definition train : input := Array train_stack.
Definition train_domains : list string := ["A"; "A"; "B"; "B"]%string.
Definition train_y : list Z := [0; 1; 0; 1]%Z.
Definition unseen_mats : list ndarray := [OneChannel.mat 1; OneChannel.mat 3].
Definition unseen_stack : ndarray := OneChannel.stack1 [1%Q; 3%Q].
Definition unseen : input := Array unseen_stack.

(** Training data of two domains whose geometric means are 2 and 4, and
    re-centered training data: the geometric mean of each domain is 1. *)
Definition spread_mats : list ndarray :=
  [OneChannel.mat 1; OneChannel.mat 4; OneChannel.mat 2; OneChannel.mat 8].
Definition spread_stack : ndarray := OneChannel.stack1 [1%Q; 4%Q; 2%Q; 8%Q].
Definition spread : input := Array spread_stack.
Definition centered_mats : list ndarray :=
  [OneChannel.mat (1 # 2); OneChannel.mat 2;
   OneChannel.mat (1 # 4); OneChannel.mat 4].
Definition centered_stack : ndarray :=
  OneChannel.stack1 [(1 # 2)%Q; 2%Q; (1 # 4)%Q; 4%Q].
Definition centered : input := Array centered_stack.

Definition series_numeric : Series := SeriesNum 2 [1%Q; 2%Q].

End Examples.

(** ** The stored statistics

    The statistics an instance stores are those of the call just made when
    they are the ones the estimator it holds has computed. *)



(** The dispersions as the spec words them: for each domain, the average
    squared distance of the matrices of the domain to the identity. *)
Definition dispersions_to_identity
    (eye : nat → ndarray) (distance_sq : string → ndarray → ndarray → Q)
    (metric : string) (n_dim : nat) (domains : list string)
    (mats : list ndarray) : gmap string Q :=
  pyriemann.per_domain
    (λ g, pyriemann.dispersion distance_sq metric (eye n_dim) g) domains mats.

(** A numeric matrix of [c] channels. *)
Definition is_matrix (c : nat) (a : ndarray) : Prop :=
  ∃ data, a = NumArr [c; c] data ∧ length data = c * c.
(** * Theorems *)

(** ** [_check_data] *)

Lemma check_data_ndarray_3d (a : ndarray) :
  np.ndim a = 3 → _check_data (Array a) = Ok (Some a).
Proof.
  intros Hdim. unfold _check_data. simpl.
  rewrite bool_decide_eq_true_2; done.
Qed.

Lemma check_data_ndarray_other (a : ndarray) :
  np.ndim a ≠ 3 → _check_data (Array a) = Raise AttributeError.
Proof.
  intros Hdim. unfold _check_data. simpl.
  rewrite bool_decide_eq_false_2; done.
Qed.

Lemma check_data_frame_object (df : DataFrame) :
  np.is_object (values df) = true →
  _check_data (Frame df) =
    out ← stacked_values df;
    if bool_decide (np.ndim out = 2) then
      r ← np.shape_at out 0;
      c ← np.shape_at out 1;
      if bool_decide (r = c) then Ok (Some (np.newaxis out))
      else Raise AssertionError
    else Ok (Some out).
Proof.
  intros Hobj. unfold _check_data, stacked_values. simpl. rewrite Hobj.
  destruct (np.shape_at (values df) 1) as [cols|e]; simpl; [|done].
  destruct (if bool_decide (cols = 1) then _ else _) as [vals|e]; simpl; [|done].
  destruct (np.stack vals) as [out|e]; simpl; done.
Qed.

Lemma check_data_frame_numeric (df : DataFrame) :
  np.is_object (values df) = false → _check_data (Frame df) = Ok None.
Proof.
  intros Hnum. unfold _check_data. simpl. by rewrite Hnum.
Qed.

Lemma check_data_2d_stack (df : DataFrame) (out : ndarray) (r c : nat) :
  np.is_object (values df) = true →
  stacked_values df = Ok out →
  np.shape out = [r; c] →
  _check_data (Frame df) =
    if bool_decide (r = c) then Ok (Some (np.newaxis out))
    else Raise AssertionError.
Proof.
  intros Hobj Hstack Hshape.
  rewrite (check_data_frame_object df Hobj), Hstack. simpl.
  unfold np.ndim, np.shape_at. rewrite Hshape. simpl. done.
Qed.

Lemma newaxis_shape (a : ndarray) : np.shape (np.newaxis a) = 1 :: np.shape a.
Proof. by destruct a. Qed.

Lemma length_chunks {A} (k n : nat) (l : list A) : length (np.chunks k n l) = n.
Proof. revert l. induction n as [|n IH]; intros l; simpl; [done|by rewrite IH]. Qed.

Lemma concat_chunks {A} (k n : nat) (l : list A) :
  length l = n * k → concat (np.chunks k n l) = l.
Proof.
  revert l. induction n as [|n IH]; intros l Hlen; simpl.
  - by destruct l.
  - rewrite IH.
    + apply take_drop.
    + rewrite length_drop. lia.
Qed.

(** The stack of an object-typed 2-d array with [m] columns, [m] not 1, is
    the array itself: its rows are stacked, not its cells. *)
Lemma stack_rows (n m : nat) (cells : list ndarray) :
  n ≠ 0 → length cells = n * m →
  np.stack (ObjArr [n; m] cells) = Ok (ObjArr [n; m] cells).
Proof.
  intros Hn Hlen. unfold np.stack. cbn [np.items mbind result_bind].
  replace (np.size_of [m]) with m by (simpl; lia).
  pose proof (length_chunks m n cells) as Hchunks.
  pose proof (concat_chunks m n cells Hlen) as Hconcat.
  destruct (np.chunks m n cells) as [|row rows] eqn:Hrows.
  { simpl in Hchunks. lia. }
  unfold np.stack_seq.
  cbn [fmap list_fmap].
  assert (forallb (λ a, bool_decide (np.shape a = np.shape (ObjArr [m] row)))
            (ObjArr [m] row :: (ObjArr [m] <$> rows)) = true) as ->.
  { apply forallb_forall. intros a Ha.
    apply bool_decide_eq_true_2.
    change (ObjArr [m] row :: (ObjArr [m] <$> rows))
      with (ObjArr [m] <$> (row :: rows)) in Ha.
    apply in_map_iff in Ha as (x & <- & _). done. }
  cbn [forallb np.is_object negb andb].
  f_equal. f_equal.
  - simpl. rewrite length_fmap. simpl in Hchunks. by rewrite Hchunks.
  - rewrite <- Hconcat. simpl. f_equal.
    clear. induction rows as [|r rows IH]; simpl; [done|]. f_equal. exact IH.
Qed.

Lemma stacked_values_many_columns (n m : nat) (cells : list ndarray) :
  m ≠ 1 → stacked_values (FrameObj n m cells) = np.stack (ObjArr [n; m] cells).
Proof.
  intros Hm. unfold stacked_values. simpl.
  rewrite bool_decide_eq_false_2; done.
Qed.

Lemma stack_no_rows (m : nat) (cells : list ndarray) :
  np.stack (ObjArr [0; m] cells) = Raise ValueError.
Proof. done. Qed.

Lemma check_data_one_cell (c : nat) (data : list Q) :
  _check_data (Frame (FrameObj 1 1 [NumArr [c; c] data])) =
  Ok (Some (NumArr [1; c; c] data)).
Proof.
  unfold _check_data. simpl. unfold np.stack, np.stack_seq. simpl.
  rewrite bool_decide_eq_true_2 by done. simpl.
  by rewrite app_nil_r.
Qed.

(** C5 (as amended).  A 3-dimensional array is returned unchanged.  A single
    matrix of shape (c,c) normalises to shape (1,c,c) when it comes in an
    object-typed frame: as the one cell of a one-row, one-column frame, or as
    a frame whose stack is the 2-dimensional (c,c) array, to which the leading
    dimension is added.  Passed as a bare 2-dimensional array it is not
    normalised: the access to [.values] raises. *)
Theorem check_data_shape_round_trip
    (a : ndarray) (c : nat) (data : list Q) (df : DataFrame) (out : ndarray) :
  np.ndim a = 3 →
  np.is_object (values df) = true →
  stacked_values df = Ok out →
  np.shape out = [c; c] →
  _check_data (Array a) = Ok (Some a) ∧
  _check_data (Frame (FrameObj 1 1 [NumArr [c; c] data])) =
    Ok (Some (NumArr [1; c; c] data)) ∧
  (_check_data (Frame df) = Ok (Some (np.newaxis out)) ∧
   np.shape (np.newaxis out) = [1; c; c]) ∧
  _check_data (Array (NumArr [c; c] data)) = Raise AttributeError.
Proof.
  intros Hdim Hobj Hstack Hshape.
  split; [|split; [|split; [split|]]].
  - by apply check_data_ndarray_3d.
  - apply check_data_one_cell.
  - rewrite (check_data_2d_stack df out c c Hobj Hstack Hshape).
    by rewrite bool_decide_eq_true_2.
  - by rewrite newaxis_shape, Hshape.
  - by apply check_data_ndarray_other.
Qed.

Lemma check_data_shape_round_trip_witness :
  np.ndim Examples.stack_of_two = 3 ∧
  np.is_object (values Examples.frame_of_rows) = true ∧
  stacked_values Examples.frame_of_rows = Ok Examples.C2 ∧
  np.shape Examples.C2 = [2; 2] ∧
  _check_data (Array Examples.stack_of_two) = Ok (Some Examples.stack_of_two) ∧
  _check_data (Frame (FrameObj 1 1 [Examples.C2])) =
    Ok (Some (NumArr [1; 2; 2] [2%Q; 1%Q; 1%Q; 2%Q])) ∧
  (_check_data (Frame Examples.frame_of_rows) =
     Ok (Some (np.newaxis Examples.C2)) ∧
   np.shape (np.newaxis Examples.C2) = [1; 2; 2]) ∧
  _check_data Examples.bare_matrix = Raise AttributeError.
Proof.
  split; [reflexivity|]. split; [reflexivity|].
  split; [reflexivity|]. split; [reflexivity|].
  apply (check_data_shape_round_trip Examples.stack_of_two 2
           [2%Q; 1%Q; 1%Q; 2%Q] Examples.frame_of_rows Examples.C2);
    reflexivity.
Defined.

(** C5, the claim as stated fails: a single 2x2 matrix passed as it is does
    not normalise to shape (1,2,2); [_check_data] raises. *)
Lemma check_data_bare_matrix_raises :
  np.shape Examples.C2 = [2; 2] ∧
  _check_data Examples.bare_matrix = Raise AttributeError ∧
  ¬ (∃ out, _check_data Examples.bare_matrix = Ok (Some out) ∧
            np.shape out = [1; 2; 2]).
Proof.
  split; [reflexivity|]. split; [reflexivity|].
  intros (out & Hout & _). vm_compute in Hout. discriminate.
Qed.

(** C7.  For an object-typed frame whose stack is 2-dimensional, of shape
    (r,c): when r and c differ [_check_data] raises [AssertionError]; when
    they are equal it returns the stack with a leading dimension of size 1. *)
Theorem check_data_single_sample_square
    (df : DataFrame) (out : ndarray) (r c : nat) :
  np.is_object (values df) = true →
  stacked_values df = Ok out →
  np.shape out = [r; c] →
  (r ≠ c → _check_data (Frame df) = Raise AssertionError) ∧
  (r = c → _check_data (Frame df) = Ok (Some (np.newaxis out)) ∧
           np.shape (np.newaxis out) = [1; r; c]).
Proof.
  intros Hobj Hstack Hshape.
  rewrite (check_data_2d_stack df out r c Hobj Hstack Hshape). split.
  - intros Hne. by rewrite bool_decide_eq_false_2.
  - intros Heq. rewrite bool_decide_eq_true_2 by done.
    by rewrite newaxis_shape, Hshape.
Qed.

Lemma check_data_single_sample_square_witness :
  np.is_object (values Examples.frame_3x2) = true ∧
  stacked_values Examples.frame_3x2 =
    Ok (ObjArr [3; 2] [Examples.I2; Examples.C2; Examples.I2; Examples.C2;
                       Examples.I2; Examples.C2]) ∧
  _check_data (Frame Examples.frame_3x2) = Raise AssertionError.
Proof.
  split; [reflexivity|]. split; [reflexivity|].
  eapply (check_data_single_sample_square Examples.frame_3x2 _ 3 2);
    [reflexivity | reflexivity | reflexivity | lia].
Defined.

(** C10 (as amended).  With more than one column the column axis is not
    dropped and the number of columns is not checked: [np.stack] stacks the
    n rows, not the cells, into the 2-dimensional (n,m) object array, and the
    single-sample branch takes over.  The call raises [ValueError] when there
    is no row and [AssertionError] when n and m differ; when n = m it returns
    the cells as a (1,n,n) object array. *)
Theorem check_data_many_columns (n m : nat) (cells : list ndarray) :
  1 < m →
  length cells = n * m →
  stacked_values (FrameObj n m cells) =
    (if bool_decide (n = 0) then Raise ValueError
     else Ok (ObjArr [n; m] cells)) ∧
  _check_data (Frame (FrameObj n m cells)) =
    (if bool_decide (n = 0) then Raise ValueError
     else if bool_decide (n = m) then Ok (Some (ObjArr [1; n; m] cells))
     else Raise AssertionError).
Proof.
  intros Hm Hlen.
  assert (stacked_values (FrameObj n m cells) =
          if bool_decide (n = 0) then Raise ValueError
          else Ok (ObjArr [n; m] cells)) as Hstack.
  { rewrite stacked_values_many_columns by lia.
    case_bool_decide as Hn.
    - subst n. apply stack_no_rows.
    - by apply stack_rows. }
  split; [exact Hstack|].
  case_bool_decide as Hn.
  - rewrite check_data_frame_object by done. by rewrite Hstack.
  - rewrite (check_data_2d_stack (FrameObj n m cells) (ObjArr [n; m] cells)
               n m eq_refl Hstack eq_refl).
    by case_bool_decide.
Qed.

Lemma check_data_many_columns_witness :
  1 < 2 ∧
  length [Examples.I2; Examples.C2; Examples.C2; Examples.I2] = 2 * 2 ∧
  stacked_values Examples.frame_2x2 =
    Ok (ObjArr [2; 2] [Examples.I2; Examples.C2; Examples.C2; Examples.I2]) ∧
  _check_data (Frame Examples.frame_2x2) =
    Ok (Some (ObjArr [1; 2; 2]
                [Examples.I2; Examples.C2; Examples.C2; Examples.I2])).
Proof.
  split; [lia|]. split; [reflexivity|].
  apply (check_data_many_columns 2 2
           [Examples.I2; Examples.C2; Examples.C2; Examples.I2]);
    [lia | reflexivity].
Defined.

(** C10, the claim as stated fails: on three samples and two columns of
    matrices [_check_data] raises. *)
Lemma check_data_many_columns_raises :
  values Examples.frame_3x2 =
    ObjArr [3; 2] [Examples.I2; Examples.C2; Examples.I2; Examples.C2;
                   Examples.I2; Examples.C2] ∧
  _check_data (Frame Examples.frame_3x2) = Raise AssertionError ∧
  succeeds (_check_data (Frame Examples.frame_3x2)) = false.
Proof. repeat split; reflexivity. Qed.

(** ** The two classes, over any implementation of the collaborator *)

Ltac run_method :=
  cbv beta iota zeta delta
    [mbind mret method_bind method_ret result_bind get_self lift set_self].

Section ClassFacts.

Variable encode_domains :
  option ndarray → list Z → list string → result (list key).
Variable TLCenter_fit : option ndarray → list key → method TLCenter ().
Variable TLCenter_fit_transform :
  option ndarray → list key → method TLCenter ndarray.
Variable TLStretch_fit : option ndarray → list key → method TLStretch ().
Variable TLStretch_transform : option ndarray → method TLStretch ndarray.
Variable TLStretch_fit_transform :
  option ndarray → list key → method TLStretch ndarray.


(** *** What each method does, as one case analysis *)


Lemma ReCenter_fit_body_eq (X : option ndarray) (y : list Z) (self : ReCenter) :
  ReCenter_fit_body encode_domains TLCenter_fit X y self =
  match encode_domains X y (rc_domains self) with
  | Raise e => (self, Raise e)
  | Ok y_enc =>
      let r := TLCenter_fit X y_enc
                 (new_TLCenter target_domain (rc_metric self)) in
      let self' := set_re_center_ (state_after r) self in
      match outcome r with
      | Raise e => (self', Raise e)
      | Ok _ =>
          match recenter_ (state_after r) with
          | Some m => (set_means_ m self', Ok ())
          | None => (self', Raise AttributeError)
          end
      end
  end.
Proof.
  unfold ReCenter_fit_body. run_method.
  destruct (encode_domains X y (rc_domains self)) as [y_enc|e]; [|done].
  unfold set_self, on_re_center_. cbn [re_center_ set_re_center_].
  destruct (TLCenter_fit X y_enc _) as [est [[]|e]] eqn:E; cbn; [|done].
  destruct (recenter_ est); done.
Qed.

Lemma ReCenter_transform_body_eq (X : option ndarray) (y : option (list Z))
    (self : ReCenter) :
  ReCenter_transform_body encode_domains TLCenter_fit_transform X y self =
  match target_keys encode_domains X with
  | Raise e => (self, Raise e)
  | Ok y_enc =>
      let r := TLCenter_fit_transform X y_enc
                 (new_TLCenter target_domain (rc_metric self)) in
      (set_re_center_ (state_after r) self, outcome r)
  end.
Proof.
  unfold ReCenter_transform_body, target_keys. run_method.
  destruct (shape0 X) as [n|e]; [|done].
  destruct (encode_domains X _ _) as [y_enc|e]; [|done].
  unfold set_self, on_re_center_. cbn [re_center_ set_re_center_].
  destruct (TLCenter_fit_transform X y_enc _) as [est [out|e]]; done.
Qed.

Lemma ReCenter_fit_transform_body_eq (X : option ndarray) (y : list Z)
    (self : ReCenter) :
  ReCenter_fit_transform_body encode_domains TLCenter_fit_transform X y self =
  match encode_domains X y (rc_domains self) with
  | Raise e => (self, Raise e)
  | Ok y_enc =>
      let r := TLCenter_fit_transform X y_enc
                 (new_TLCenter target_domain (rc_metric self)) in
      (set_re_center_ (state_after r) self, outcome r)
  end.
Proof.
  unfold ReCenter_fit_transform_body. run_method.
  destruct (encode_domains X y (rc_domains self)) as [y_enc|e]; [|done].
  unfold set_self, on_re_center_. cbn [re_center_ set_re_center_].
  destruct (TLCenter_fit_transform X y_enc _) as [est [out|e]]; done.
Qed.

Lemma ReScale_fit_body_eq (X : option ndarray) (y : list Z) (self : ReScale) :
  ReScale_fit_body encode_domains TLStretch_fit X y self =
  match encode_domains X y (rs_domains self) with
  | Raise e => (self, Raise e)
  | Ok y_enc =>
      let r := TLStretch_fit X y_enc
                 (new_TLStretch target_domain false (rs_metric self)) in
      let self' := set_re_scale_ (state_after r) self in
      match outcome r with
      | Raise e => (self', Raise e)
      | Ok _ =>
          match dispersions_ (state_after r) with
          | Some d => (set_dispersions_ d self', Ok ())
          | None => (self', Raise AttributeError)
          end
      end
  end.
Proof.
  unfold ReScale_fit_body. run_method.
  destruct (encode_domains X y (rs_domains self)) as [y_enc|e]; [|done].
  unfold set_self, on_re_scale_. cbn [re_scale_ set_re_scale_].
  destruct (TLStretch_fit X y_enc _) as [est [[]|e]]; cbn; [|done].
  destruct (dispersions_ est); done.
Qed.

Lemma ReScale_transform_body_eq (X : option ndarray) (y : option (list Z))
    (self : ReScale) :
  ReScale_transform_body encode_domains TLStretch_fit TLStretch_transform
    X y self =
  match target_keys encode_domains X with
  | Raise e => (self, Raise e)
  | Ok y_enc =>
      let fitted := TLStretch_fit X y_enc
                      (new_TLStretch target_domain false (rs_metric self)) in
      match outcome fitted with
      | Raise e => (set_re_scale_ (state_after fitted) self, Raise e)
      | Ok _ =>
          let applied := TLStretch_transform X (state_after fitted) in
          (set_re_scale_ (state_after applied) self, outcome applied)
      end
  end.
Proof.
  unfold ReScale_transform_body, target_keys. run_method.
  destruct (shape0 X) as [n|e]; [|done].
  destruct (encode_domains X _ _) as [y_enc|e]; [|done].
  unfold set_self, on_re_scale_. cbn [re_scale_ set_re_scale_].
  destruct (TLStretch_fit X y_enc _) as [est [[]|e]]; cbn; [|done].
  destruct (TLStretch_transform X est) as [est' [out|e]]; done.
Qed.

Lemma ReScale_fit_transform_body_eq (X : option ndarray) (y : list Z)
    (self : ReScale) :
  ReScale_fit_transform_body encode_domains TLStretch_fit_transform X y self =
  match encode_domains X y (rs_domains self) with
  | Raise e => (self, Raise e)
  | Ok y_enc =>
      let r := TLStretch_fit_transform X y_enc
                 (new_TLStretch target_domain false (rs_metric self)) in
      (set_re_scale_ (state_after r) self, outcome r)
  end.
Proof.
  unfold ReScale_fit_transform_body. run_method.
  destruct (encode_domains X y (rs_domains self)) as [y_enc|e]; [|done].
  unfold set_self, on_re_scale_. cbn [re_scale_ set_re_scale_].
  destruct (TLStretch_fit_transform X y_enc _) as [est [out|e]]; done.
Qed.

(** A method is its body run on what [_check_data] returned. *)
Lemma method_of_body {S A} (body : option ndarray → method S A) (X : input)
    (self : S) :
  (Xc ← lift (_check_data X); body Xc) self =
  match _check_data X with
  | Ok Xc => body Xc self
  | Raise e => (self, Raise e)
  end.
Proof.
  run_method. by destruct (_check_data X).
Qed.

(** *** The output of [transform] *)

Lemma ReCenter_transform_outcome (X : input) (y : option (list Z))
    (self : ReCenter) :
  outcome (ReCenter_transform encode_domains TLCenter_fit_transform X y self) =
  Xc ← _check_data X;
  y_enc ← target_keys encode_domains Xc;
  outcome (TLCenter_fit_transform Xc y_enc
             (new_TLCenter target_domain (rc_metric self))).
Proof.
  unfold ReCenter_transform. rewrite method_of_body.
  destruct (_check_data X) as [Xc|e]; [|done].
  rewrite ReCenter_transform_body_eq. cbn [mbind result_bind].
  by destruct (target_keys encode_domains Xc).
Qed.

Lemma ReScale_transform_outcome (X : input) (y : option (list Z))
    (self : ReScale) :
  outcome (ReScale_transform encode_domains TLStretch_fit TLStretch_transform
             X y self) =
  Xc ← _check_data X;
  y_enc ← target_keys encode_domains Xc;
  let fitted := TLStretch_fit Xc y_enc
                  (new_TLStretch target_domain false (rs_metric self)) in
  _ ← outcome fitted;
  outcome (TLStretch_transform Xc (state_after fitted)).
Proof.
  unfold ReScale_transform. rewrite method_of_body.
  destruct (_check_data X) as [Xc|e]; [|done].
  rewrite ReScale_transform_body_eq. cbn [mbind result_bind].
  destruct (target_keys encode_domains Xc) as [y_enc|e]; [|done].
  cbv zeta. cbn [mbind result_bind].
  by destruct (TLStretch_fit Xc y_enc _) as [est [[]|e]].
Qed.

(** *** The configuration is not written by any method *)

Lemma ReCenter_call_metric (c : call) (self : ReCenter) :
  rc_metric (ReCenter_call encode_domains TLCenter_fit TLCenter_fit_transform
               c self) = rc_metric self.
Proof.
  destruct c as [X y|X y|X y]; unfold ReCenter_call.
  - unfold ReCenter_fit. rewrite method_of_body.
    destruct (_check_data X) as [Xc|e]; [|done].
    rewrite ReCenter_fit_body_eq.
    destruct (encode_domains Xc y _) as [y_enc|e]; [|done].
    cbv zeta. destruct (TLCenter_fit Xc y_enc _) as [est [[]|e]]; [|done].
    cbn. by destruct (recenter_ est).
  - unfold ReCenter_transform. rewrite method_of_body.
    destruct (_check_data X) as [Xc|e]; [|done].
    rewrite ReCenter_transform_body_eq.
    by destruct (target_keys encode_domains Xc).
  - unfold ReCenter_fit_transform. rewrite method_of_body.
    destruct (_check_data X) as [Xc|e]; [|done].
    rewrite ReCenter_fit_transform_body_eq.
    by destruct (encode_domains Xc y _).
Qed.

Lemma ReCenter_calls_metric (h : list call) (self : ReCenter) :
  rc_metric (ReCenter_calls encode_domains TLCenter_fit TLCenter_fit_transform
               h self) = rc_metric self.
Proof.
  revert self. induction h as [|c h IH]; intros self; [done|].
  cbn [ReCenter_calls foldl]. unfold ReCenter_calls in IH.
  by rewrite IH, ReCenter_call_metric.
Qed.

Lemma ReScale_call_metric (c : call) (self : ReScale) :
  rs_metric (ReScale_call encode_domains TLStretch_fit TLStretch_transform
               TLStretch_fit_transform c self) = rs_metric self.
Proof.
  destruct c as [X y|X y|X y]; unfold ReScale_call.
  - unfold ReScale_fit. rewrite method_of_body.
    destruct (_check_data X) as [Xc|e]; [|done].
    rewrite ReScale_fit_body_eq.
    destruct (encode_domains Xc y _) as [y_enc|e]; [|done].
    cbv zeta. destruct (TLStretch_fit Xc y_enc _) as [est [[]|e]]; [|done].
    cbn. by destruct (dispersions_ est).
  - unfold ReScale_transform. rewrite method_of_body.
    destruct (_check_data X) as [Xc|e]; [|done].
    rewrite ReScale_transform_body_eq.
    destruct (target_keys encode_domains Xc) as [y_enc|e]; [|done].
    cbv zeta. by destruct (TLStretch_fit Xc y_enc _) as [est [[]|e]].
  - unfold ReScale_fit_transform. rewrite method_of_body.
    destruct (_check_data X) as [Xc|e]; [|done].
    rewrite ReScale_fit_transform_body_eq.
    by destruct (encode_domains Xc y _).
Qed.

Lemma ReScale_calls_metric (h : list call) (self : ReScale) :
  rs_metric (ReScale_calls encode_domains TLStretch_fit TLStretch_transform
               TLStretch_fit_transform h self) = rs_metric self.
Proof.
  revert self. induction h as [|c h IH]; intros self; [done|].
  cbn [ReScale_calls foldl]. unfold ReScale_calls in IH.
  by rewrite IH, ReScale_call_metric.
Qed.

End ClassFacts.

(** ** The model of pyRiemann *)

Lemma mapM_Ok {A B} (f : A → result B) (g : A → B) (l : list A) :
  (∀ x, x ∈ l → f x = Ok (g x)) → mapM f l = Ok (g <$> l).
Proof.
  induction l as [|x l IH]; intros Hf; [done|].
  cbn [mapM fmap list_fmap].
  rewrite (Hf x) by left. cbn [mbind result_bind].
  change ((fix go (l0 : list A) : result (list B) :=
             match l0 with
             | [] => mret []
             | x0 :: l1 => y ← f x0; k ← go l1; mret (y :: k)
             end) l) with (mapM f l).
  rewrite IH; [done|]. intros x' Hx'. apply Hf. by right.
Qed.

Lemma shape_at_0 (a : ndarray) (n : nat) :
  np.shape_at a 0 = Ok n → ∃ rest, np.shape a = n :: rest.
Proof.
  unfold np.shape_at. destruct (np.shape a) as [|n' rest]; simpl; [done|].
  intros [= ->]. by exists rest.
Qed.

(** The key construction succeeds on the placeholders of [transform]. *)
Lemma target_keys_pyriemann (a : ndarray) (n : nat) :
  np.shape_at a 0 = Ok n →
  target_keys pyriemann.encode_domains (Some a) =
  Ok (replicate n (target_domain, 0%Z)).
Proof.
  intros Hn. unfold target_keys, shape0. cbn [attr mbind result_bind].
  rewrite Hn. cbn [mbind result_bind].
  apply shape_at_0 in Hn as [rest Hshape].
  unfold pyriemann.encode_domains, pyriemann.len.
  cbn [pyriemann.subscriptable mbind result_bind]. rewrite Hshape.
  cbn [mbind result_bind]. rewrite !length_replicate.
  rewrite !bool_decide_eq_true_2 by done. cbn [andb].
  f_equal. apply zip_with_replicate.
Qed.

Lemma samples_Ok (a : ndarray) (mats : list ndarray) (y_enc : list key) :
  np.items a = Ok mats → length mats = length y_enc →
  pyriemann.samples (Some a) y_enc = Ok mats.
Proof.
  intros Hitems Hlen. unfold pyriemann.samples.
  cbn [pyriemann.subscriptable mbind result_bind]. rewrite Hitems.
  cbn [mbind result_bind]. by rewrite bool_decide_eq_true_2.
Qed.

Lemma decode_domains_zip (domains : list string) (y : list Z) :
  length y = length domains →
  pyriemann.decode_domains (zip domains y) = domains.
Proof. intros Hlen. unfold pyriemann.decode_domains. apply fst_zip. lia. Qed.

Lemma decode_domains_replicate (n : nat) (d : string) (l : Z) :
  pyriemann.decode_domains (replicate n (d, l)) = replicate n d.
Proof. unfold pyriemann.decode_domains. apply fmap_replicate. Qed.

Lemma select_replicate (d : string) (mats : list ndarray) :
  pyriemann.select d (replicate (length mats) d) mats = mats.
Proof.
  unfold pyriemann.select.
  induction mats as [|X0 mats IH]; [done|].
  cbn [length replicate zip zip_with]. rewrite filter_cons_True by done.
  cbn [fmap list_fmap snd]. f_equal. exact IH.
Qed.

Lemma lookup_tabulate {V} (g : string → V) (l : list string) (d : string) :
  d ∈ l →
  (list_to_map ((λ d, (d, g d)) <$> l) : gmap string V) !! d = Some (g d).
Proof.
  induction l as [|d' l IH]; intros Hd.
  - by apply elem_of_nil in Hd.
  - cbn [fmap list_fmap list_to_map foldr].
    destruct (decide (d' = d)) as [->|Hne].
    + apply lookup_insert_eq.
    + rewrite lookup_insert_ne by done. apply IH.
      apply elem_of_cons in Hd as [Heq|Hd]; [congruence|done].
Qed.

Lemma per_domain_lookup {V} (f : list ndarray → V) (domains : list string)
    (mats : list ndarray) (d : string) :
  d ∈ domains →
  pyriemann.per_domain f domains mats !! d =
  Some (f (pyriemann.select d domains mats)).
Proof.
  intros Hd. unfold pyriemann.per_domain.
  apply (lookup_tabulate (λ d, f (pyriemann.select d domains mats))), Hd.
Qed.

Lemma per_domain_absent {V} (f : list ndarray → V) (domains : list string)
    (mats : list ndarray) (d : string) :
  d ∉ domains → pyriemann.per_domain f domains mats !! d = None.
Proof.
  intros Hd. unfold pyriemann.per_domain.
  apply not_elem_of_list_to_map_1. rewrite <- list_fmap_compose.
  by rewrite list_fmap_id.
Qed.

(** One domain only: one statistic, over all the samples. *)
Lemma per_domain_replicate {V} (f : list ndarray → V) (d : string)
    (mats : list ndarray) :
  mats ≠ [] →
  pyriemann.per_domain f (replicate (length mats) d) mats = {[ d := f mats ]}.
Proof.
  intros Hne. apply map_eq. intros d'.
  destruct (decide (d' = d)) as [->|Hd].
  - rewrite per_domain_lookup, select_replicate, lookup_singleton_eq; [done|].
    destruct mats; [done|]. by left.
  - rewrite per_domain_absent, lookup_singleton_ne; [done|done|].
    intros Hin. apply elem_of_replicate in Hin as [? _]. done.
Qed.

Section PyriemannFacts.

Variable mean_covariance : string → list ndarray → ndarray.
Variable congruence : ndarray → ndarray → ndarray.
Variable eye : nat → ndarray.
Variable distance_sq : string → ndarray → ndarray → Q.

(** Re-centering with the fitted means: every sample by the mean of its own
    domain. *)
Lemma recenter_each_per_domain (metric : string) (domains : list string)
    (mats : list ndarray) :
  pyriemann.recenter_each congruence
    (pyriemann.per_domain (mean_covariance metric) domains mats) domains mats =
  Ok ((λ p, congruence
              (mean_covariance metric (pyriemann.select p.1 domains mats)) p.2)
        <$> zip domains mats).
Proof.
  unfold pyriemann.recenter_each. apply mapM_Ok. intros [d X0] Hin.
  apply elem_of_zip_l in Hin. unfold pyriemann.lookup_domain. cbn [fst snd].
  by rewrite per_domain_lookup.
Qed.

Lemma TLCenter_fit_Ok (a : ndarray) (mats : list ndarray) (y_enc : list key)
    (est : TLCenter) :
  np.items a = Ok mats → length mats = length y_enc →
  pyriemann.TLCenter_fit mean_covariance (Some a) y_enc est =
  (pyriemann.set_recenter_
     (pyriemann.per_domain (mean_covariance (tlc_metric est))
        (pyriemann.decode_domains y_enc) mats) est, Ok ()).
Proof.
  intros Hitems Hlen. unfold pyriemann.TLCenter_fit. run_method.
  by rewrite (samples_Ok a mats y_enc Hitems Hlen).
Qed.

Lemma TLCenter_fit_transform_Ok (a : ndarray) (mats : list ndarray)
    (y_enc : list key) (est : TLCenter) :
  np.items a = Ok mats → length mats = length y_enc →
  pyriemann.TLCenter_fit_transform mean_covariance congruence (Some a) y_enc
    est =
  (pyriemann.set_recenter_
     (pyriemann.per_domain (mean_covariance (tlc_metric est))
        (pyriemann.decode_domains y_enc) mats) est,
   Ok (pyriemann.like a
         ((λ p, congruence
                  (mean_covariance (tlc_metric est)
                     (pyriemann.select p.1 (pyriemann.decode_domains y_enc)
                        mats)) p.2)
            <$> zip (pyriemann.decode_domains y_enc) mats))).
Proof.
  intros Hitems Hlen. unfold pyriemann.TLCenter_fit_transform.
  run_method. rewrite (TLCenter_fit_Ok a mats y_enc est Hitems Hlen).
  cbn [recenter_ pyriemann.set_recenter_ attr pyriemann.subscriptable
       tlc_metric].
  rewrite (samples_Ok a mats y_enc Hitems Hlen).
  by rewrite recenter_each_per_domain.
Qed.

(** On the keys of [transform] there is one domain, whose mean is the mean of
    all the samples, and every sample is re-centered by it. *)
Lemma TLCenter_fit_transform_target (a : ndarray) (mats : list ndarray)
    (metric : string) :
  np.items a = Ok mats → mats ≠ [] →
  pyriemann.TLCenter_fit_transform mean_covariance congruence (Some a)
    (replicate (length mats) (target_domain, 0%Z))
    (new_TLCenter target_domain metric) =
  (mkTLCenter target_domain metric
     (Some {[ target_domain := mean_covariance metric mats ]}),
   Ok (pyriemann.like a (congruence (mean_covariance metric mats) <$> mats))).
Proof.
  intros Hitems Hne.
  rewrite (TLCenter_fit_transform_Ok a mats _ _ Hitems)
    by (by rewrite length_replicate).
  rewrite decode_domains_replicate. cbn [tlc_metric new_TLCenter].
  rewrite per_domain_replicate by done.
  unfold pyriemann.set_recenter_. cbn [tlc_target_domain tlc_metric].
  f_equal. f_equal. f_equal.
  transitivity ((λ p : string * ndarray,
                   congruence (mean_covariance metric mats) p.2)
                  <$> zip (replicate (length mats) target_domain) mats).
  - apply list_fmap_ext. intros i [d X0] Hi. cbn [fst snd].
    apply list_elem_of_lookup_2, elem_of_zip_l, elem_of_replicate_inv in Hi.
    subst d. by rewrite select_replicate.
  - pose proof (snd_zip (replicate (length mats) target_domain) mats) as Hsnd.
    rewrite length_replicate in Hsnd. specialize (Hsnd (le_n _)).
    generalize dependent (zip (replicate (length mats) target_domain) mats).
    intros l Hl. rewrite <- Hl. by rewrite <- list_fmap_compose.
Qed.

End PyriemannFacts.

(** ** The claims about the two classes *)

(** C1.  On an instance of any history, [ReCenter.transform] returns what a
    fresh mean estimator, fitted and applied on [X] with every sample tagged
    as the target domain, returns: the output is a function of [X] and of the
    metric, whatever was fitted or transformed before and whatever [y] and
    the domains are.  With the estimator of pyRiemann the mean is the mean of
    all the matrices of [X], every matrix is re-centered by it, and it is the
    one mean the instance's estimator holds after the call. *)
Theorem ReCenter_transform_self_contained
    (encode_domains : option ndarray → list Z → list string → result (list key))
    (TLCenter_fit : option ndarray → list key → method TLCenter ())
    (TLCenter_fit_transform : option ndarray → list key → method TLCenter ndarray)
    (mean_covariance : string → list ndarray → ndarray)
    (congruence : ndarray → ndarray → ndarray)
    (domains : list string) (metric : string) (h : list call)
    (X : input) (y : option (list Z)) (a : ndarray) (mats : list ndarray) :
  _check_data X = Ok (Some a) →
  np.items a = Ok mats →
  np.shape_at a 0 = Ok (length mats) →
  mats ≠ [] →
  outcome
    (ReCenter_transform encode_domains TLCenter_fit_transform X y
       (ReCenter_calls encode_domains TLCenter_fit TLCenter_fit_transform h
          (new_ReCenter domains metric))) =
    (y_enc ← target_keys encode_domains (Some a);
     outcome (TLCenter_fit_transform (Some a) y_enc
                (new_TLCenter target_domain metric))) ∧
  let r :=
    ReCenter_transform pyriemann.encode_domains
      (pyriemann.TLCenter_fit_transform mean_covariance congruence) X y
      (ReCenter_calls pyriemann.encode_domains
         (pyriemann.TLCenter_fit mean_covariance)
         (pyriemann.TLCenter_fit_transform mean_covariance congruence) h
         (new_ReCenter domains metric)) in
  outcome r =
    Ok (pyriemann.like a
          (congruence (mean_covariance metric mats) <$> mats)) ∧
  re_center_ (state_after r) ≫= recenter_ =
    Some {[ target_domain := mean_covariance metric mats ]}.
Proof.
  intros Hcheck Hitems Hshape Hne. split.
  - rewrite ReCenter_transform_outcome, ReCenter_calls_metric, Hcheck. done.
  - cbv zeta.
    set (self := ReCenter_calls _ _ _ h _).
    assert (rc_metric self = metric) as Hmetric
      by apply ReCenter_calls_metric.
    unfold ReCenter_transform. rewrite method_of_body, Hcheck.
    rewrite ReCenter_transform_body_eq.
    rewrite (target_keys_pyriemann a (length mats) Hshape).
    cbv zeta. rewrite Hmetric.
    rewrite (TLCenter_fit_transform_target mean_covariance congruence
               a mats metric Hitems Hne).
    done.
Qed.

Lemma ReCenter_transform_self_contained_witness :
  _check_data Examples.unseen = Ok (Some Examples.unseen_stack) ∧
  np.items Examples.unseen_stack = Ok Examples.unseen_mats ∧
  outcome
    (OneChannel.transform Examples.unseen None
       (state_after
          (OneChannel.fit Examples.train Examples.train_y
             (new_ReCenter Examples.train_domains Examples.euclid)))) =
    Ok (OneChannel.stack1 [(1 # 2)%Q; (3 # 2)%Q]).
Proof.
  split; [reflexivity|]. split; [reflexivity|].
  destruct (ReCenter_transform_self_contained
              OneChannel.encode_domains OneChannel.TLCenter_fit
              OneChannel.TLCenter_fit_transform
              OneChannel.mean_covariance OneChannel.congruence
              Examples.train_domains Examples.euclid
              [CallFit Examples.train Examples.train_y]
              Examples.unseen None Examples.unseen_stack Examples.unseen_mats)
    as [_ [Hout _]]; [reflexivity | reflexivity | reflexivity | discriminate |].
  exact Hout.
Defined.

(** A Series has one axis: when object-typed, [values.shape[1]] raises;
    otherwise no branch is taken. *)
Lemma check_data_series (s : Series) :
  _check_data (PdSeries s) =
  if np.is_object (series_values s) then Raise IndexError else Ok None.
Proof. by destruct s. Qed.

(** What [np.stack] returns has a first axis. *)
Lemma stack_shape (vals out : ndarray) :
  np.stack vals = Ok out →
  ∃ n rest, np.shape out = n :: rest.
Proof.
  unfold np.stack. destruct (np.items vals) as [arrays|e]; [|done].
  cbn [mbind result_bind]. unfold np.stack_seq.
  destruct arrays as [|a0 arrays]; [done|].
  destruct (forallb _ _); [|done].
  destruct (forallb _ _); intros [= <-]; eauto.
Qed.

(** What [_check_data] returns, when an array, has a first axis: [X.shape[0]]
    is defined. *)
Lemma check_data_shape0 (X : input) (a : ndarray) :
  _check_data X = Ok (Some a) → ∃ n, np.shape_at a 0 = Ok n.
Proof.
  destruct X as [a'|df|s];
    [| |by rewrite check_data_series; destruct (np.is_object _)].
  - unfold _check_data. cbn [input_ndim as_ndarray input_values].
    case_bool_decide as Hdim; [|done]. intros [= <-].
    unfold np.ndim in Hdim. unfold np.shape_at.
    destruct (np.shape a') as [|n rest]; [done|]. by exists n.
  - destruct (np.is_object (values df)) eqn:Hobj.
    + rewrite check_data_frame_object by done.
      destruct (stacked_values df) as [out|e] eqn:Hstack; [|done].
      cbn [mbind result_bind].
      assert (∃ n rest, np.shape out = n :: rest) as (n & rest & Hshape).
      { unfold stacked_values in Hstack.
        destruct (np.shape_at (values df) 1) as [cols|e]; [|done].
        cbn [mbind result_bind] in Hstack.
        destruct (if bool_decide (cols = 1) then _ else _) as [vals|e];
          [|done].
        by apply (stack_shape vals). }
      case_bool_decide as Hdim.
      * unfold np.shape_at at 1 2. rewrite Hshape.
        unfold np.ndim in Hdim. rewrite Hshape in Hdim.
        destruct rest as [|c rest]; [done|]. simpl.
        case_bool_decide; [|done]. intros [= <-].
        exists 1. unfold np.shape_at. by rewrite newaxis_shape.
      * intros [= <-]. exists n. unfold np.shape_at. by rewrite Hshape.
    + by rewrite check_data_frame_numeric.
Qed.

(** C6.  The output of [transform], of ReCenter and of ReScale, is the same
    whatever [y] is passed, whatever domains the instance was constructed
    with and whatever it has fitted: the keys are built from placeholders.
    On what [_check_data] returns the key construction of pyRiemann succeeds
    and gives, for each sample, the target domain and the label 0. *)
Theorem transform_ignores_labels_and_domains
    (encode_domains : option ndarray → list Z → list string → result (list key))
    (TLCenter_fit_transform : option ndarray → list key → method TLCenter ndarray)
    (TLStretch_fit : option ndarray → list key → method TLStretch ())
    (TLStretch_transform : option ndarray → method TLStretch ndarray)
    (X : input) (a : ndarray) (y1 y2 : option (list Z)) (metric : string)
    (domains1 domains2 : list string)
    (center1 center2 : option TLCenter)
    (means1 means2 : option (gmap string ndarray))
    (scale1 scale2 : option TLStretch)
    (disp1 disp2 : option (gmap string Q)) :
  _check_data X = Ok (Some a) →
  outcome (ReCenter_transform encode_domains TLCenter_fit_transform X y1
             (mkReCenter domains1 metric center1 means1)) =
  outcome (ReCenter_transform encode_domains TLCenter_fit_transform X y2
             (mkReCenter domains2 metric center2 means2)) ∧
  outcome (ReScale_transform encode_domains TLStretch_fit TLStretch_transform
             X y1 (mkReScale domains1 metric scale1 disp1)) =
  outcome (ReScale_transform encode_domains TLStretch_fit TLStretch_transform
             X y2 (mkReScale domains2 metric scale2 disp2)) ∧
  ∃ n, np.shape_at a 0 = Ok n ∧
       target_keys pyriemann.encode_domains (Some a) =
       Ok (replicate n (target_domain, 0%Z)).
Proof.
  intros Hcheck. split; [|split].
  - by rewrite !ReCenter_transform_outcome.
  - by rewrite !ReScale_transform_outcome.
  - destruct (check_data_shape0 X a Hcheck) as [n Hn].
    exists n. split; [done|]. by apply target_keys_pyriemann.
Qed.

Lemma transform_ignores_labels_and_domains_witness :
  _check_data Examples.unseen = Ok (Some Examples.unseen_stack) ∧
  outcome (OneChannel.transform Examples.unseen None
             (new_ReCenter [] Examples.euclid)) =
  outcome (OneChannel.transform Examples.unseen (Some [1; 2]%Z)
             (state_after
                (OneChannel.fit Examples.train Examples.train_y
                   (new_ReCenter Examples.train_domains Examples.euclid)))) ∧
  target_keys pyriemann.encode_domains (Some Examples.unseen_stack) =
  Ok [(target_domain, 0%Z); (target_domain, 0%Z)].
Proof.
  split; [reflexivity|].
  pose proof (transform_ignores_labels_and_domains
                OneChannel.encode_domains OneChannel.TLCenter_fit_transform
                OneChannel.TLStretch_fit OneChannel.TLStretch_transform
                Examples.unseen Examples.unseen_stack None (Some [1; 2]%Z)
                Examples.euclid [] Examples.train_domains
                None
                (re_center_
                   (state_after
                      (OneChannel.fit Examples.train Examples.train_y
                         (new_ReCenter Examples.train_domains
                            Examples.euclid))))
                None
                (means_
                   (state_after
                      (OneChannel.fit Examples.train Examples.train_y
                         (new_ReCenter Examples.train_domains
                            Examples.euclid))))
                None None None None eq_refl) as [Hcenter [_ _]].
  split; [exact Hcenter | reflexivity].
Defined.

(** C8.  [ReScale.transform] is two calls on a fresh stretch estimator: [fit]
    on [X] with the keys of the target domain, then, when [fit] returned,
    [transform] on [X] of the estimator as [fit] left it; the instance keeps
    the estimator.  [ReScale.fit] makes the one call [fit], stores the
    dispersions of the estimator and returns no array, and
    [ReScale.fit_transform] makes the one call [fit_transform]. *)
Theorem ReScale_transform_fits_then_applies
    (encode_domains : option ndarray → list Z → list string → result (list key))
    (TLStretch_fit : option ndarray → list key → method TLStretch ())
    (TLStretch_transform : option ndarray → method TLStretch ndarray)
    (TLStretch_fit_transform : option ndarray → list key → method TLStretch ndarray)
    (X : input) (y : list Z) (yt : option (list Z)) (self : ReScale) :
  let fresh := new_TLStretch target_domain false (rs_metric self) in
  ReScale_transform encode_domains TLStretch_fit TLStretch_transform X yt self =
    match _check_data X with
    | Raise e => (self, Raise e)
    | Ok Xc =>
        match target_keys encode_domains Xc with
        | Raise e => (self, Raise e)
        | Ok y_enc =>
            let fitted := TLStretch_fit Xc y_enc fresh in
            match outcome fitted with
            | Raise e => (set_re_scale_ (state_after fitted) self, Raise e)
            | Ok _ =>
                let applied := TLStretch_transform Xc (state_after fitted) in
                (set_re_scale_ (state_after applied) self, outcome applied)
            end
        end
    end ∧
  ReScale_fit encode_domains TLStretch_fit X y self =
    match _check_data X with
    | Raise e => (self, Raise e)
    | Ok Xc =>
        match encode_domains Xc y (rs_domains self) with
        | Raise e => (self, Raise e)
        | Ok y_enc =>
            let fitted := TLStretch_fit Xc y_enc fresh in
            let self' := set_re_scale_ (state_after fitted) self in
            match outcome fitted with
            | Raise e => (self', Raise e)
            | Ok _ =>
                match dispersions_ (state_after fitted) with
                | Some d => (set_dispersions_ d self', Ok ())
                | None => (self', Raise AttributeError)
                end
            end
        end
    end ∧
  ReScale_fit_transform encode_domains TLStretch_fit_transform X y self =
    match _check_data X with
    | Raise e => (self, Raise e)
    | Ok Xc =>
        match encode_domains Xc y (rs_domains self) with
        | Raise e => (self, Raise e)
        | Ok y_enc =>
            let fused := TLStretch_fit_transform Xc y_enc fresh in
            (set_re_scale_ (state_after fused) self, outcome fused)
        end
    end.
Proof.
  cbv zeta. split; [|split].
  - unfold ReScale_transform. rewrite method_of_body.
    destruct (_check_data X) as [Xc|e]; [|done].
    apply ReScale_transform_body_eq.
  - unfold ReScale_fit. rewrite method_of_body.
    destruct (_check_data X) as [Xc|e]; [|done].
    apply ReScale_fit_body_eq.
  - unfold ReScale_fit_transform. rewrite method_of_body.
    destruct (_check_data X) as [Xc|e]; [|done].
    apply ReScale_fit_transform_body_eq.
Qed.

(** C9.  On a frame of numbers [_check_data] returns [None] without raising,
    and the methods go on with it: [fit] and [fit_transform] run the rest of
    their body on [None], which is what they pass to [encode_domains];
    [transform] raises at [X.shape], past the normalisation. *)
Theorem check_data_numeric_frame_gives_None
    (encode_domains : option ndarray → list Z → list string → result (list key))
    (TLCenter_fit : option ndarray → list key → method TLCenter ())
    (TLCenter_fit_transform : option ndarray → list key → method TLCenter ndarray)
    (TLStretch_fit : option ndarray → list key → method TLStretch ())
    (TLStretch_transform : option ndarray → method TLStretch ndarray)
    (TLStretch_fit_transform : option ndarray → list key → method TLStretch ndarray)
    (n m : nat) (data : list Q) (y : list Z) (yt : option (list Z))
    (rc : ReCenter) (rs : ReScale) :
  let X := Frame (FrameNum n m data) in
  _check_data X = Ok None ∧
  ReCenter_fit encode_domains TLCenter_fit X y rc =
    ReCenter_fit_body encode_domains TLCenter_fit None y rc ∧
  ReCenter_fit_transform encode_domains TLCenter_fit_transform X y rc =
    ReCenter_fit_transform_body encode_domains TLCenter_fit_transform None y rc ∧
  ReCenter_transform encode_domains TLCenter_fit_transform X yt rc =
    (rc, Raise AttributeError) ∧
  ReScale_fit encode_domains TLStretch_fit X y rs =
    ReScale_fit_body encode_domains TLStretch_fit None y rs ∧
  ReScale_fit_transform encode_domains TLStretch_fit_transform X y rs =
    ReScale_fit_transform_body encode_domains TLStretch_fit_transform None y rs ∧
  ReScale_transform encode_domains TLStretch_fit TLStretch_transform X yt rs =
    (rs, Raise AttributeError) ∧
  (∀ e, encode_domains None y (rc_domains rc) = Raise e →
        ReCenter_fit encode_domains TLCenter_fit X y rc = (rc, Raise e)).
Proof.
  cbv zeta.
  assert (_check_data (Frame (FrameNum n m data)) = Ok None) as Hcheck
    by (by apply check_data_frame_numeric).
  split_and!.
  - exact Hcheck.
  - unfold ReCenter_fit. by rewrite method_of_body, Hcheck.
  - unfold ReCenter_fit_transform. by rewrite method_of_body, Hcheck.
  - unfold ReCenter_transform. by rewrite method_of_body, Hcheck.
  - unfold ReScale_fit. by rewrite method_of_body, Hcheck.
  - unfold ReScale_fit_transform. by rewrite method_of_body, Hcheck.
  - unfold ReScale_transform. by rewrite method_of_body, Hcheck.
  - intros e He. unfold ReCenter_fit. rewrite method_of_body, Hcheck.
    by rewrite ReCenter_fit_body_eq, He.
Qed.

Section StoredStatistics.

Variable encode_domains :
  option ndarray → list Z → list string → result (list key).
Variable TLCenter_fit : option ndarray → list key → method TLCenter ().
Variable TLCenter_fit_transform :
  option ndarray → list key → method TLCenter ndarray.
Variable TLStretch_fit : option ndarray → list key → method TLStretch ().
Variable TLStretch_transform : option ndarray → method TLStretch ndarray.
Variable TLStretch_fit_transform :
  option ndarray → list key → method TLStretch ndarray.







End StoredStatistics.




Section StretchFacts.

Variable mean_covariance : string → list ndarray → ndarray.
Variable eye : nat → ndarray.
Variable distance_sq : string → ndarray → ndarray → Q.

Lemma TLStretch_fit_Ok (a : ndarray) (mats : list ndarray) (y_enc : list key)
    (est : TLStretch) (first : ndarray) (n_dim : nat) :
  np.items a = Ok mats → length mats = length y_enc →
  mats !! 0 = Some first → np.shape_at first 1 = Ok n_dim →
  pyriemann.TLStretch_fit mean_covariance eye distance_sq (Some a) y_enc est =
  (pyriemann.set_fitted
     (pyriemann.per_domain
        (pyriemann.center mean_covariance eye (tls_centered_data est)
           (tls_metric est) n_dim)
        (pyriemann.decode_domains y_enc) mats)
     (pyriemann.per_domain
        (λ g, pyriemann.dispersion distance_sq (tls_metric est)
                (pyriemann.center mean_covariance eye (tls_centered_data est)
                   (tls_metric est) n_dim g) g)
        (pyriemann.decode_domains y_enc) mats) est, Ok ()).
Proof.
  intros Hitems Hlen Hfirst Hdim. unfold pyriemann.TLStretch_fit. run_method.
  rewrite (samples_Ok a mats y_enc Hitems Hlen), Hfirst, Hdim. done.
Qed.

End StretchFacts.

Lemma encode_domains_Ok (a : ndarray) (y : list Z) (domains : list string) :
  np.shape_at a 0 = Ok (length domains) → length y = length domains →
  pyriemann.encode_domains (Some a) y domains = Ok (zip domains y).
Proof.
  intros Hshape Hy. apply shape_at_0 in Hshape as [rest Hshape].
  unfold pyriemann.encode_domains, pyriemann.len.
  cbn [pyriemann.subscriptable mbind result_bind]. rewrite Hshape.
  cbn [mbind result_bind]. by rewrite !bool_decide_eq_true_2.
Qed.

(** C2 (as amended).  [ReScale.fit] fits a stretch estimator constructed with
    [centered_data=False]: for each domain it stores the average squared
    distance of the matrices of the domain to the mean of the domain, which
    the estimator recomputes; it returns no array.  For a domain whose mean is
    the identity this is the average squared distance to the identity. *)
Theorem ReScale_fit_dispersion_around_domain_mean
    (mean_covariance : string → list ndarray → ndarray)
    (eye : nat → ndarray)
    (distance_sq : string → ndarray → ndarray → Q)
    (X : input) (y : list Z) (self : ReScale)
    (a : ndarray) (mats : list ndarray) (first : ndarray) (n_dim : nat) :
  _check_data X = Ok (Some a) →
  np.items a = Ok mats →
  np.shape_at a 0 = Ok (length (rs_domains self)) →
  length y = length (rs_domains self) →
  length mats = length (rs_domains self) →
  mats !! 0 = Some first →
  np.shape_at first 1 = Ok n_dim →
  let r := ReScale_fit pyriemann.encode_domains
             (pyriemann.TLStretch_fit mean_covariance eye distance_sq)
             X y self in
  outcome r = Ok () ∧
  rs_dispersions_ (state_after r) =
    Some (pyriemann.per_domain
            (λ g, pyriemann.dispersion distance_sq (rs_metric self)
                    (mean_covariance (rs_metric self) g) g)
            (rs_domains self) mats) ∧
  ∀ d disp,
    rs_dispersions_ (state_after r) = Some disp →
    d ∈ rs_domains self →
    mean_covariance (rs_metric self)
      (pyriemann.select d (rs_domains self) mats) = eye n_dim →
    disp !! d =
    dispersions_to_identity eye distance_sq (rs_metric self) n_dim
      (rs_domains self) mats !! d.
Proof.
  intros Hcheck Hitems Hshape Hy Hlen Hfirst Hdim. cbv zeta.
  assert (ReScale_fit pyriemann.encode_domains
            (pyriemann.TLStretch_fit mean_covariance eye distance_sq)
            X y self =
          (set_dispersions_
             (pyriemann.per_domain
                (λ g, pyriemann.dispersion distance_sq (rs_metric self)
                        (mean_covariance (rs_metric self) g) g)
                (rs_domains self) mats)
             (set_re_scale_
                (pyriemann.set_fitted
                   (pyriemann.per_domain (mean_covariance (rs_metric self))
                      (rs_domains self) mats)
                   (pyriemann.per_domain
                      (λ g, pyriemann.dispersion distance_sq (rs_metric self)
                              (mean_covariance (rs_metric self) g) g)
                      (rs_domains self) mats)
                   (new_TLStretch target_domain false (rs_metric self)))
                self), Ok ())) as ->.
  { unfold ReScale_fit. rewrite method_of_body, Hcheck, ReScale_fit_body_eq.
    rewrite (encode_domains_Ok a y _ Hshape Hy). cbv zeta.
    assert (length mats = length (zip (rs_domains self) y)) as Hzip
      by (rewrite length_zip; lia).
    rewrite (TLStretch_fit_Ok mean_covariance eye distance_sq a mats _ _
               first n_dim Hitems Hzip Hfirst Hdim).
    rewrite (decode_domains_zip _ _ Hy). done. }
  split; [done|]. split; [done|].
  intros d disp [= <-] Hd Hmean. unfold dispersions_to_identity.
  rewrite !per_domain_lookup by done. by rewrite Hmean.
Qed.

Lemma ReScale_fit_dispersion_around_domain_mean_witness :
  _check_data Examples.centered = Ok (Some Examples.centered_stack) ∧
  np.items Examples.centered_stack = Ok Examples.centered_mats ∧
  OneChannel.mean_riemann
    (pyriemann.select "A" Examples.train_domains Examples.centered_mats) =
    OneChannel.eye 1 ∧
  outcome (OneChannel.riemann_scale_fit Examples.centered Examples.train_y
             (new_ReScale Examples.train_domains Examples.euclid)) = Ok () ∧
  rs_dispersions_
    (state_after
       (OneChannel.riemann_scale_fit Examples.centered Examples.train_y
          (new_ReScale Examples.train_domains Examples.euclid))) =
  Some (pyriemann.per_domain
          (λ g, pyriemann.dispersion OneChannel.distance_sq Examples.euclid
                  (OneChannel.mean_riemann g) g)
          Examples.train_domains Examples.centered_mats) ∧
  ∀ disp,
    rs_dispersions_
      (state_after
         (OneChannel.riemann_scale_fit Examples.centered Examples.train_y
            (new_ReScale Examples.train_domains Examples.euclid))) =
    Some disp →
    disp !! "A"%string =
    dispersions_to_identity OneChannel.eye OneChannel.distance_sq
      Examples.euclid 1 Examples.train_domains Examples.centered_mats
      !! "A"%string.
Proof.
  split; [reflexivity|]. split; [reflexivity|]. split; [reflexivity|].
  destruct (ReScale_fit_dispersion_around_domain_mean
              (λ _ : string, OneChannel.mean_riemann)
              OneChannel.eye OneChannel.distance_sq
              Examples.centered Examples.train_y
              (new_ReScale Examples.train_domains Examples.euclid)
              Examples.centered_stack Examples.centered_mats
              (OneChannel.mat (1 # 2)) 1
              eq_refl eq_refl eq_refl eq_refl eq_refl eq_refl eq_refl)
    as [Hok [Hdisp Hid]].
  split; [exact Hok|]. split; [exact Hdisp|].
  intros disp Hsome.
  apply (Hid "A"%string disp Hsome); [left | reflexivity].
Defined.

(** C2, the claim as stated fails.  The claim has the dispersion taken to the
    identity without any mean being recomputed, on whatever input.  On
    training data whose two domains have the Riemannian means 2 and 4, the
    estimator holds these two recomputed means and the stored dispersions are
    5/2 and 10, the average squared distances to them; the average squared
    distances to the identity are 9/2 and 25. *)
Lemma ReScale_fit_not_around_identity :
  re_scale_
    (state_after
       (OneChannel.riemann_scale_fit Examples.spread Examples.train_y
          (new_ReScale Examples.train_domains Examples.euclid)))
    ≫= tls_means =
  Some {[ "A"%string := OneChannel.mat 2; "B"%string := OneChannel.mat 4 ]} ∧
  rs_dispersions_
    (state_after
       (OneChannel.riemann_scale_fit Examples.spread Examples.train_y
          (new_ReScale Examples.train_domains Examples.euclid))) =
  Some {[ "A"%string := (5 # 2)%Q; "B"%string := 10%Q ]} ∧
  dispersions_to_identity OneChannel.eye OneChannel.distance_sq
    Examples.euclid 1 Examples.train_domains Examples.spread_mats =
  {[ "A"%string := (9 # 2)%Q; "B"%string := 25%Q ]} ∧
  rs_dispersions_
    (state_after
       (OneChannel.riemann_scale_fit Examples.spread Examples.train_y
          (new_ReScale Examples.train_domains Examples.euclid))) ≠
  Some (dispersions_to_identity OneChannel.eye OneChannel.distance_sq
          Examples.euclid 1 Examples.train_domains Examples.spread_mats).
Proof.
  split; [by vm_compute|]. split; [by vm_compute|]. split; [by vm_compute|].
  intros Heq. vm_compute in Heq. discriminate Heq.
Qed.

(** Two stacks of as many matrices of one size are equal when their entries
    are. *)
Lemma bind_num_data_inj (c : nat) (l1 l2 : list ndarray) :
  Forall (is_matrix c) l1 → Forall (is_matrix c) l2 →
  length l1 = length l2 →
  l1 ≫= np.num_data = l2 ≫= np.num_data → l1 = l2.
Proof.
  intros H1. revert l2.
  induction H1 as [|x l1 (dx & -> & Hdx) _ IH]; intros l2 H2 Hlen Hbind.
  - by destruct l2.
  - destruct H2 as [|z l2 (dz & -> & Hdz) H2]; [done|].
    cbn in Hbind. apply app_inj_1 in Hbind as [-> Hbind]; [|congruence].
    f_equal. apply IH; [done| |done]. simpl in Hlen. congruence.
Qed.

Lemma fmap_eq_elem {A B} (f g : A → B) (l : list A) :
  f <$> l = g <$> l → ∀ x, x ∈ l → f x = g x.
Proof.
  induction l as [|x0 l IH]; intros Heq x Hx.
  - by apply elem_of_nil in Hx.
  - cbn in Heq. injection Heq as Hhead Htail.
    apply elem_of_cons in Hx as [->|Hx]; [done|by apply IH].
Qed.

Lemma elem_of_zip_domain {A} (d : string) (domains : list string)
    (mats : list A) :
  d ∈ domains → length domains = length mats →
  ∃ x, (d, x) ∈ zip domains mats.
Proof.
  revert mats. induction domains as [|d' domains IH]; intros mats Hd Hlen.
  - by apply elem_of_nil in Hd.
  - destruct mats as [|x mats]; [done|]. simpl in Hlen.
    apply elem_of_cons in Hd as [->|Hd].
    + exists x. by left.
    + destruct (IH mats Hd) as [x' Hx']; [congruence|].
      exists x'. by right.
Qed.

(** C4.  On training data with the true domains of the instance,
    [fit_transform] re-centers each sample by the mean of its own domain,
    and [fit] followed by [transform] re-centers every sample by the one mean
    of all the samples.  Both return; when two domains present have different
    means, re-centering a sample by two different means giving two different
    matrices, the two outputs differ. *)
Theorem fit_transform_differs_from_fit_then_transform
    (mean_covariance : string → list ndarray → ndarray)
    (congruence : ndarray → ndarray → ndarray)
    (domains : list string) (metric : string)
    (X : input) (y : list Z) (a : ndarray) (mats : list ndarray)
    (c : nat) (d1 d2 : string) :
  _check_data X = Ok (Some a) →
  np.items a = Ok mats →
  np.shape_at a 0 = Ok (length mats) →
  length domains = length mats →
  length y = length mats →
  (∀ M X0, X0 ∈ mats → is_matrix c (congruence M X0)) →
  (∀ d X0, (d, X0) ∈ zip domains mats →
     congruence (mean_covariance metric (pyriemann.select d domains mats)) X0 =
     congruence (mean_covariance metric mats) X0 →
     mean_covariance metric (pyriemann.select d domains mats) =
     mean_covariance metric mats) →
  d1 ∈ domains → d2 ∈ domains →
  mean_covariance metric (pyriemann.select d1 domains mats) ≠
  mean_covariance metric (pyriemann.select d2 domains mats) →
  let enc := pyriemann.encode_domains in
  let fit := pyriemann.TLCenter_fit mean_covariance in
  let fit_transform :=
    pyriemann.TLCenter_fit_transform mean_covariance congruence in
  let self := new_ReCenter domains metric in
  let fused := ReCenter_fit_transform enc fit_transform X y self in
  let fitted := ReCenter_fit enc fit X y self in
  let separate :=
    ReCenter_transform enc fit_transform X None (state_after fitted) in
  outcome fused =
    Ok (pyriemann.like a
          ((λ p, congruence
                   (mean_covariance metric (pyriemann.select p.1 domains mats))
                   p.2) <$> zip domains mats)) ∧
  outcome fitted = Ok () ∧
  outcome separate =
    Ok (pyriemann.like a
          (congruence (mean_covariance metric mats) <$> mats)) ∧
  outcome fused ≠ outcome separate.
Proof.
  intros Hcheck Hitems Hshape Hdom Hy Hmat Hinj Hd1 Hd2 Hne. cbv zeta.
  assert (mats ≠ []) as Hmats.
  { intros ->. destruct domains; [by apply elem_of_nil in Hd1|done]. }
  assert (np.shape_at a 0 = Ok (length domains)) as Hshape'
    by (by rewrite Hdom).
  assert (length y = length domains) as Hy' by congruence.
  assert (length mats = length (zip domains y)) as Hzip
    by (rewrite length_zip; lia).
  (* fit_transform *)
  assert (outcome
            (ReCenter_fit_transform pyriemann.encode_domains
               (pyriemann.TLCenter_fit_transform mean_covariance congruence)
               X y (new_ReCenter domains metric)) =
          Ok (pyriemann.like a
                ((λ p, congruence
                         (mean_covariance metric
                            (pyriemann.select p.1 domains mats)) p.2)
                   <$> zip domains mats))) as Hfused.
  { unfold ReCenter_fit_transform.
    rewrite method_of_body, Hcheck, ReCenter_fit_transform_body_eq.
    cbn [rc_domains rc_metric new_ReCenter].
    rewrite (encode_domains_Ok a y domains Hshape' Hy'). cbv zeta.
    rewrite (TLCenter_fit_transform_Ok mean_covariance congruence a mats _ _
               Hitems Hzip).
    by rewrite (decode_domains_zip _ _ Hy'). }
  (* fit *)
  assert (ReCenter_fit pyriemann.encode_domains
            (pyriemann.TLCenter_fit mean_covariance) X y
            (new_ReCenter domains metric) =
          (mkReCenter domains metric
             (Some (mkTLCenter target_domain metric
                      (Some (pyriemann.per_domain (mean_covariance metric)
                               domains mats))))
             (Some (pyriemann.per_domain (mean_covariance metric)
                      domains mats)), Ok ())) as Hfit.
  { unfold ReCenter_fit.
    rewrite method_of_body, Hcheck, ReCenter_fit_body_eq.
    cbn [rc_domains rc_metric new_ReCenter].
    rewrite (encode_domains_Ok a y domains Hshape' Hy'). cbv zeta.
    rewrite (TLCenter_fit_Ok mean_covariance a mats _ _ Hitems Hzip).
    by rewrite (decode_domains_zip _ _ Hy'). }
  (* transform after fit *)
  assert (outcome
            (ReCenter_transform pyriemann.encode_domains
               (pyriemann.TLCenter_fit_transform mean_covariance congruence)
               X None
               (state_after
                  (ReCenter_fit pyriemann.encode_domains
                     (pyriemann.TLCenter_fit mean_covariance) X y
                     (new_ReCenter domains metric)))) =
          Ok (pyriemann.like a
                (congruence (mean_covariance metric mats) <$> mats)))
    as Hseparate.
  { rewrite Hfit, ReCenter_transform_outcome, Hcheck.
    cbn [mbind result_bind state_after fst rc_metric].
    rewrite (target_keys_pyriemann a (length mats) Hshape).
    cbn [mbind result_bind].
    by rewrite (TLCenter_fit_transform_target mean_covariance congruence
                  a mats metric Hitems Hmats). }
  split; [exact Hfused|]. split; [by rewrite Hfit|].
  split; [exact Hseparate|].
  rewrite Hfused, Hseparate. intros [= Heq].
  (* the pooled re-centering, sample by sample *)
  assert (congruence (mean_covariance metric mats) <$> mats =
          (λ p : string * ndarray,
             congruence (mean_covariance metric mats) p.2)
            <$> zip domains mats) as Hpooled.
  { pose proof (snd_zip domains mats) as Hsnd.
    specialize (Hsnd ltac:(lia)).
    transitivity (congruence (mean_covariance metric mats)
                    <$> (zip domains mats).*2); [by rewrite Hsnd|].
    by rewrite <- list_fmap_compose. }
  rewrite Hpooled in Heq.
  apply (bind_num_data_inj c) in Heq.
  - assert (∀ d, d ∈ domains →
              mean_covariance metric (pyriemann.select d domains mats) =
              mean_covariance metric mats) as Hall.
    { intros d Hd.
      destruct (elem_of_zip_domain d domains mats Hd Hdom) as [X0 HX0].
      apply (Hinj d X0 HX0).
      apply (fmap_eq_elem _ _ _ Heq (d, X0) HX0). }
    apply Hne. by rewrite (Hall d1 Hd1), (Hall d2 Hd2).
  - apply Forall_fmap, Forall_forall. intros [d X0] Hin.
    apply Hmat. by apply elem_of_zip_r in Hin.
  - apply Forall_fmap, Forall_forall. intros [d X0] Hin.
    apply Hmat. by apply elem_of_zip_r in Hin.
  - by rewrite !length_fmap.
Qed.

Lemma fit_transform_differs_from_fit_then_transform_witness :
  _check_data Examples.train = Ok (Some Examples.train_stack) ∧
  OneChannel.mean_covariance Examples.euclid
    (pyriemann.select "A" Examples.train_domains Examples.train_mats) ≠
  OneChannel.mean_covariance Examples.euclid
    (pyriemann.select "B" Examples.train_domains Examples.train_mats) ∧
  outcome (OneChannel.fit_transform Examples.train Examples.train_y
             (new_ReCenter Examples.train_domains Examples.euclid)) ≠
  outcome (OneChannel.transform Examples.train None
             (state_after
                (OneChannel.fit Examples.train Examples.train_y
                   (new_ReCenter Examples.train_domains Examples.euclid)))).
Proof.
  assert (OneChannel.mean_covariance Examples.euclid
            (pyriemann.select "A" Examples.train_domains Examples.train_mats) ≠
          OneChannel.mean_covariance Examples.euclid
            (pyriemann.select "B" Examples.train_domains Examples.train_mats))
    as Hne.
  { intros H. vm_compute in H. discriminate H. }
  split; [reflexivity|]. split; [exact Hne|].
  refine (proj2 (proj2 (proj2
    (fit_transform_differs_from_fit_then_transform
       OneChannel.mean_covariance OneChannel.congruence
       Examples.train_domains Examples.euclid
       Examples.train Examples.train_y
       Examples.train_stack Examples.train_mats 1 "A" "B"
       eq_refl eq_refl eq_refl eq_refl eq_refl _ _ _ _ Hne)))).
  - intros M X0 _. eexists. split; reflexivity.
  - intros d X0 Hin Heq.
    unfold Examples.train_domains, Examples.train_mats in Hin.
    cbn [zip zip_with] in Hin.
    repeat (apply elem_of_cons in Hin as [[= -> ->]|Hin];
            [vm_compute in Heq; discriminate Heq|]).
    by apply elem_of_nil in Hin.
  - unfold Examples.train_domains. left.
  - unfold Examples.train_domains. right. right. left.
Defined.

Lemma check_data_numeric_frame_gives_None_witness :
  _check_data (Frame Examples.frame_numeric) = Ok None ∧
  OneChannel.encode_domains None Examples.train_y Examples.train_domains =
    Raise TypeError ∧
  OneChannel.fit (Frame Examples.frame_numeric) Examples.train_y
    (new_ReCenter Examples.train_domains Examples.euclid) =
    (new_ReCenter Examples.train_domains Examples.euclid, Raise TypeError).
Proof.
  split; [reflexivity|]. split; [reflexivity|].
  apply (check_data_numeric_frame_gives_None
           OneChannel.encode_domains OneChannel.TLCenter_fit
           OneChannel.TLCenter_fit_transform OneChannel.TLStretch_fit
           OneChannel.TLStretch_transform OneChannel.TLStretch_fit_transform
           2 2 [1%Q; 0%Q; 0%Q; 1%Q] Examples.train_y None
           (new_ReCenter Examples.train_domains Examples.euclid)
           (new_ReScale Examples.train_domains Examples.euclid)).
  reflexivity.
Defined.

(** ** Further properties of [_check_data] *)

Lemma chunks_singletons {A} (l : list A) :
  np.chunks 1 (length l) l ≫= take 1 = l.
Proof.
  induction l as [|x l IH]; [done|].
  cbn [length np.chunks]. cbn. rewrite drop_0. f_equal. exact IH.
Qed.

Lemma chunks_bind {A B} (f : A → list B) (k : nat) (l : list A) :
  Forall (λ x, length (f x) = k) l →
  np.chunks k (length l) (l ≫= f) = f <$> l.
Proof.
  induction 1 as [|x l Hx _ IH]; [done|].
  cbn [length np.chunks]. cbn.
  rewrite take_app_length', drop_app_length' by done. by rewrite IH.
Qed.

Lemma index_col0_one_column (cells : list ndarray) :
  np.index_col0 (ObjArr [length cells; 1] cells) =
  Ok (ObjArr [length cells] cells).
Proof.
  unfold np.index_col0. cbn [np.shape]. rewrite bool_decide_eq_false_2 by done.
  cbn [np.size_of foldr Nat.mul]. by rewrite chunks_singletons.
Qed.

(** The stack of a one-column frame is the stack of its cells. *)
Lemma stacked_values_one_column (cells : list ndarray) :
  stacked_values (FrameObj (length cells) 1 cells) = np.stack_seq cells.
Proof.
  unfold stacked_values. cbn [values]. unfold np.shape_at at 1.
  cbn [np.shape lookup list_lookup mbind result_bind].
  rewrite bool_decide_eq_true_2 by done.
  rewrite index_col0_one_column. cbn [mbind result_bind].
  unfold np.stack.
  assert (np.items (ObjArr [length cells] cells) = Ok cells) as ->; [|done].
  cbn [np.items]. by rewrite firstn_all.
Qed.

Lemma stack_seq_matrices (c : nat) (mats : list ndarray) :
  mats ≠ [] → Forall (is_matrix c) mats →
  np.stack_seq mats = Ok (NumArr [length mats; c; c] (mats ≫= np.num_data)).
Proof.
  intros Hne Hmats. unfold np.stack_seq.
  destruct mats as [|a0 mats']; [done|].
  assert (np.shape a0 = [c; c]) as Ha0.
  { apply Forall_cons in Hmats as [(d & -> & _) _]. done. }
  rewrite Ha0.
  assert (forallb (λ a, bool_decide (np.shape a = [c; c])) (a0 :: mats') = true)
    as ->.
  { apply forallb_forall. intros a Ha. apply bool_decide_eq_true_2.
    apply list_elem_of_In in Ha.
    apply (proj1 (Forall_forall _ _) Hmats) in Ha as (d & -> & _). done. }
  assert (forallb (λ a, negb (np.is_object a)) (a0 :: mats') = true) as ->.
  { apply forallb_forall. intros a Ha. apply list_elem_of_In in Ha.
    apply (proj1 (Forall_forall _ _) Hmats) in Ha as (d & -> & _). done. }
  done.
Qed.

(** Iterating over the stack of matrices gives the matrices back. *)
Lemma items_stack_matrices (c : nat) (mats : list ndarray) :
  Forall (is_matrix c) mats →
  np.items (NumArr [length mats; c; c] (mats ≫= np.num_data)) = Ok mats.
Proof.
  intros Hmats. cbn [np.items]. f_equal.
  rewrite chunks_bind.
  - rewrite <- list_fmap_compose.
    rewrite <- (list_fmap_id mats) at 2. apply Forall_fmap_ext_1.
    eapply Forall_impl; [exact Hmats|]. by intros a (d & -> & _).
  - eapply Forall_impl; [exact Hmats|]. intros a (d & -> & Hd).
    cbn [np.num_data np.size_of foldr]. lia.
Qed.

(** X1.  The documented input: a frame with one object-typed column holding
    one (c,c) matrix per row.  [_check_data] returns the numeric (n,c,c)
    stack of the cells, in the order of the rows: iterating over the result
    gives the cells back, and the result passes through [_check_data]
    unchanged. *)
Theorem check_data_column_of_matrices (c : nat) (mats : list ndarray) :
  mats ≠ [] → Forall (is_matrix c) mats →
  let out := NumArr [length mats; c; c] (mats ≫= np.num_data) in
  _check_data (Frame (FrameObj (length mats) 1 mats)) = Ok (Some out) ∧
  np.items out = Ok mats ∧
  _check_data (Array out) = Ok (Some out).
Proof.
  intros Hne Hmats. cbv zeta. split; [|split].
  - rewrite check_data_frame_object by done.
    rewrite stacked_values_one_column, (stack_seq_matrices c) by done.
    cbn [mbind result_bind]. by rewrite bool_decide_eq_false_2.
  - by apply items_stack_matrices.
  - by apply check_data_ndarray_3d.
Qed.

Lemma check_data_column_of_matrices_witness :
  _check_data (Frame (FrameObj 2 1 [Examples.I2; Examples.C2])) =
    Ok (Some Examples.stack_of_two) ∧
  np.items Examples.stack_of_two = Ok [Examples.I2; Examples.C2].
Proof.
  destruct (check_data_column_of_matrices 2 [Examples.I2; Examples.C2])
    as [Hcheck [Hitems _]].
  - discriminate.
  - repeat constructor; eexists; (split; [reflexivity|reflexivity]).
  - split; [exact Hcheck | exact Hitems].
Defined.

Lemma stack_seq_shape_mismatch (a0 a : ndarray) (rest : list ndarray) :
  a ∈ rest → np.shape a ≠ np.shape a0 →
  np.stack_seq (a0 :: rest) = Raise ValueError.
Proof.
  intros Ha Hshape. unfold np.stack_seq.
  destruct (forallb _ _) eqn:Hall; [|done].
  apply (proj1 (forallb_forall _ _)) with (x := a) in Hall.
  - by apply bool_decide_eq_true_1 in Hall.
  - right. by apply list_elem_of_In.
Qed.

(** X2.  What [np.stack] refuses, [_check_data] refuses with its
    [ValueError]: an object-typed frame without rows, whatever its columns,
    and a one-column frame in which some cell has not the shape of the first
    cell. *)
Theorem check_data_column_rejects
    (m : nat) (cells : list ndarray) (a0 a : ndarray) (rest : list ndarray) :
  a ∈ rest → np.shape a ≠ np.shape a0 →
  _check_data (Frame (FrameObj 0 m cells)) = Raise ValueError ∧
  _check_data (Frame (FrameObj (length (a0 :: rest)) 1 (a0 :: rest))) =
    Raise ValueError.
Proof.
  intros Ha Hshape. split.
  - rewrite check_data_frame_object by done.
    destruct (decide (m = 1)) as [->|Hm].
    + unfold stacked_values. cbn [values]. unfold np.shape_at.
      cbn [np.shape lookup list_lookup mbind result_bind].
      rewrite bool_decide_eq_true_2 by done. done.
    + rewrite stacked_values_many_columns by done. by rewrite stack_no_rows.
  - rewrite check_data_frame_object by done.
    rewrite stacked_values_one_column.
    by rewrite (stack_seq_shape_mismatch a0 a rest).
Qed.

Lemma check_data_column_rejects_witness :
  _check_data (Frame (FrameObj 0 1 [])) = Raise ValueError ∧
  _check_data
    (Frame (FrameObj 2 1 [Examples.I2; NumArr [1; 1] [1%Q]])) =
    Raise ValueError.
Proof.
  apply (check_data_column_rejects 1 [] Examples.I2 (NumArr [1; 1] [1%Q])
           [NumArr [1; 1] [1%Q]]).
  - left.
  - discriminate.
Defined.


Lemma stack_seq_Ok_shape (arrays : list ndarray) (out : ndarray) :
  np.stack_seq arrays = Ok out →
  ∃ a0, arrays !! 0 = Some a0 ∧ np.shape out = length arrays :: np.shape a0.
Proof.
  unfold np.stack_seq. destruct arrays as [|a0 arrays]; [done|].
  destruct (forallb _ _); [|done].
  destruct (forallb _ _); intros [= <-]; by exists a0.
Qed.


(** The tail of [_check_data] on the stack [out] of an object-typed frame. *)
Lemma check_data_after_stack (df : DataFrame) (out : ndarray) :
  np.is_object (values df) = true →
  stacked_values df = Ok out →
  _check_data (Frame df) =
    match np.shape out with
    | [r; c] => if bool_decide (r = c) then Ok (Some (np.newaxis out))
                else Raise AssertionError
    | _ => Ok (Some out)
    end.
Proof.
  intros Hobj Hstack. rewrite check_data_frame_object, Hstack by done.
  cbn [mbind result_bind]. unfold np.ndim, np.shape_at.
  destruct (np.shape out) as [|r [|c [|k rest]]]; done.
Qed.



(** X4.  On an ndarray, a DataFrame or a Series, [_check_data] returns
    [None] exactly when the input is a frame or a Series whose values are not
    object-typed: an ndarray, an object-typed frame and an object-typed
    Series give an array or an exception. *)
Theorem check_data_None_iff (X : input) :
  _check_data X = Ok None ↔
  (∃ df, X = Frame df ∧ np.is_object (values df) = false) ∨
  (∃ s, X = PdSeries s ∧ np.is_object (series_values s) = false).
Proof.
  split.
  - destruct X as [a|df|s].
    + unfold _check_data. cbn [input_ndim as_ndarray input_values].
      by case_bool_decide.
    + destruct (np.is_object (values df)) eqn:Hobj; [|left; by exists df].
      destruct (stacked_values df) as [out|e] eqn:Hstack.
      * rewrite (check_data_after_stack df out Hobj Hstack).
        destruct (np.shape out) as [|r [|c [|k rest]]]; try done.
        by case_bool_decide.
      * by rewrite check_data_frame_object, Hstack.
    + rewrite check_data_series.
      destruct (np.is_object (series_values s)) eqn:Hobj; [done|].
      right. by exists s.
  - intros [(df & -> & Hnum)|(s & -> & Hnum)].
    + by apply check_data_frame_numeric.
    + by rewrite check_data_series, Hnum.
Qed.

Lemma check_data_None_iff_witness :
  _check_data (Frame Examples.frame_numeric) = Ok None ∧
  _check_data (PdSeries Examples.series_numeric) = Ok None ∧
  ((∃ df, PdSeries Examples.series_numeric = Frame df ∧
          np.is_object (values df) = false) ∨
   (∃ s, PdSeries Examples.series_numeric = PdSeries s ∧
         np.is_object (series_values s) = false)).
Proof.
  split; [|split].
  - apply (proj2 (check_data_None_iff (Frame Examples.frame_numeric))).
    left. by exists Examples.frame_numeric.
  - apply (proj2 (check_data_None_iff (PdSeries Examples.series_numeric))).
    right. by exists Examples.series_numeric.
  - exact (proj1 (check_data_None_iff (PdSeries Examples.series_numeric))
             eq_refl).
Defined.

(** X5.  The array [_check_data] returns is never 2-dimensional and has a
    first axis, so that [X.shape[0]] is defined on it; it is 3-dimensional
    when the input is an ndarray or when the stack of the frame is
    2-dimensional.  A Series never gives an array. *)
Theorem check_data_result_dimensions (X : input) (a : ndarray) :
  _check_data X = Ok (Some a) →
  np.ndim a ≠ 2 ∧ 1 ≤ np.ndim a ∧
  (∃ n, np.shape_at a 0 = Ok n) ∧
  match X with
  | Array _ => np.ndim a = 3
  | Frame df =>
      ∃ out, stacked_values df = Ok out ∧
             np.ndim a = if bool_decide (np.ndim out = 2) then 3
                         else np.ndim out
  | PdSeries _ => False
  end.
Proof.
  intros Hcheck.
  destruct (check_data_shape0 X a Hcheck) as [n Hn].
  assert (1 ≤ np.ndim a) as Hpos.
  { apply shape_at_0 in Hn as [rest Hshape]. unfold np.ndim.
    rewrite Hshape. simpl. lia. }
  assert (match X with
          | Array _ => np.ndim a = 3
          | Frame df =>
              ∃ out, stacked_values df = Ok out ∧
                     np.ndim a = if bool_decide (np.ndim out = 2) then 3
                                 else np.ndim out
          | PdSeries _ => False
          end) as Hdim.
  { destruct X as [a'|df|s];
      [| |by rewrite check_data_series in Hcheck;
           destruct (np.is_object _)].
    - revert Hcheck. unfold _check_data.
      cbn [input_ndim as_ndarray input_values].
      case_bool_decide as Hdim; [|done]. by intros [= <-].
    - destruct (np.is_object (values df)) eqn:Hobj;
        [|by rewrite check_data_frame_numeric in Hcheck].
      destruct (stacked_values df) as [out|e] eqn:Hstack;
        [|by rewrite check_data_frame_object, Hstack in Hcheck].
      exists out. split; [done|].
      rewrite (check_data_after_stack df out Hobj Hstack) in Hcheck.
      destruct (np.shape out) as [|r [|c [|k rest]]] eqn:Hshape;
        pose proof (f_equal length Hshape) as Hlen;
        change (length (np.shape out)) with (np.ndim out) in Hlen;
        cbn [length] in Hlen;
        try (injection Hcheck as <-; rewrite bool_decide_eq_false_2 by lia;
             done).
      rewrite bool_decide_eq_true_2 by done.
      revert Hcheck. case_bool_decide; [|done]. intros [= <-].
      unfold np.ndim. by rewrite newaxis_shape, Hshape. }
  split; [|by split; [|split; [exists n|]]].
  destruct X as [a'|df|s]; [lia| |done].
  destruct Hdim as (out & _ & ->). case_bool_decide; [lia|done].
Qed.

Lemma check_data_result_dimensions_witness :
  _check_data (Frame Examples.frame_of_rows) =
    Ok (Some (np.newaxis Examples.C2)) ∧
  np.ndim (np.newaxis Examples.C2) ≠ 2 ∧
  ∃ n, np.shape_at (np.newaxis Examples.C2) 0 = Ok n.
Proof.
  split; [reflexivity|].
  destruct (check_data_result_dimensions (Frame Examples.frame_of_rows)
              (np.newaxis Examples.C2) eq_refl) as [Hdim [_ [Hshape _]]].
  split; [exact Hdim | exact Hshape].
Defined.

(** X6.  The number of samples of a one-column object-typed frame.  When
    [_check_data] returns, the shape of the result is the number of rows
    followed by the shape of the first cell, unless the cells are
    1-dimensional: then the rows, as many as a cell is long, are taken for
    the rows of one matrix and the result holds one sample. *)
Theorem check_data_column_sample_count (cells : list ndarray) (a : ndarray) :
  _check_data (Frame (FrameObj (length cells) 1 cells)) = Ok (Some a) →
  ∃ a0, cells !! 0 = Some a0 ∧
        np.shape a =
          if bool_decide (np.ndim a0 = 1)
          then [1; length cells; length cells]
          else length cells :: np.shape a0.
Proof.
  intros Hcheck.
  destruct (np.stack_seq cells) as [out|e] eqn:Hstack.
  - destruct (stack_seq_Ok_shape cells out Hstack) as (a0 & Ha0 & Hshape).
    exists a0. split; [done|].
    rewrite <- stacked_values_one_column in Hstack.
    rewrite (check_data_after_stack (FrameObj (length cells) 1 cells) out
               eq_refl Hstack), Hshape in Hcheck.
    unfold np.ndim.
    destruct (np.shape a0) as [|c [|k rest]]; cbn [length].
    + injection Hcheck as <-. by rewrite bool_decide_eq_false_2.
    + rewrite bool_decide_eq_true_2 by done.
      revert Hcheck. case_bool_decide as Hrc; [|done]. intros [= <-].
      rewrite newaxis_shape, Hshape. by rewrite <- Hrc.
    + injection Hcheck as <-. by rewrite bool_decide_eq_false_2.
  - rewrite check_data_frame_object, stacked_values_one_column, Hstack
      in Hcheck by done.
    done.
Qed.

Lemma check_data_column_sample_count_witness :
  _check_data (Frame Examples.frame_of_rows) =
    Ok (Some (np.newaxis Examples.C2)) ∧
  np.shape (np.newaxis Examples.C2) = [1; 2; 2].
Proof.
  split; [reflexivity|].
  destruct (check_data_column_sample_count
              [NumArr [2] [2%Q; 1%Q]; NumArr [2] [1%Q; 2%Q]]
              (np.newaxis Examples.C2) eq_refl) as (a0 & Ha0 & Hshape).
  injection Ha0 as <-. exact Hshape.
Defined.

(** ** Further properties of the two classes, over any implementation of the
    collaborator *)

Section MethodProperties.

Variable encode_domains :
  option ndarray → list Z → list string → result (list key).
Variable TLCenter_fit : option ndarray → list key → method TLCenter ().
Variable TLCenter_fit_transform :
  option ndarray → list key → method TLCenter ndarray.
Variable TLStretch_fit : option ndarray → list key → method TLStretch ().
Variable TLStretch_transform : option ndarray → method TLStretch ndarray.
Variable TLStretch_fit_transform :
  option ndarray → list key → method TLStretch ndarray.

Lemma ReCenter_call_domains (c : call) (self : ReCenter) :
  rc_domains (ReCenter_call encode_domains TLCenter_fit TLCenter_fit_transform
                c self) = rc_domains self.
Proof.
  destruct c as [X y|X y|X y]; unfold ReCenter_call.
  - unfold ReCenter_fit. rewrite method_of_body.
    destruct (_check_data X) as [Xc|e]; [|done].
    rewrite ReCenter_fit_body_eq.
    destruct (encode_domains Xc y _) as [y_enc|e]; [|done].
    cbv zeta. destruct (TLCenter_fit Xc y_enc _) as [est [[]|e]]; [|done].
    cbn. by destruct (recenter_ est).
  - unfold ReCenter_transform. rewrite method_of_body.
    destruct (_check_data X) as [Xc|e]; [|done].
    rewrite ReCenter_transform_body_eq.
    by destruct (target_keys encode_domains Xc).
  - unfold ReCenter_fit_transform. rewrite method_of_body.
    destruct (_check_data X) as [Xc|e]; [|done].
    rewrite ReCenter_fit_transform_body_eq.
    by destruct (encode_domains Xc y _).
Qed.

Lemma ReScale_call_domains (c : call) (self : ReScale) :
  rs_domains (ReScale_call encode_domains TLStretch_fit TLStretch_transform
                TLStretch_fit_transform c self) = rs_domains self.
Proof.
  destruct c as [X y|X y|X y]; unfold ReScale_call.
  - unfold ReScale_fit. rewrite method_of_body.
    destruct (_check_data X) as [Xc|e]; [|done].
    rewrite ReScale_fit_body_eq.
    destruct (encode_domains Xc y _) as [y_enc|e]; [|done].
    cbv zeta. destruct (TLStretch_fit Xc y_enc _) as [est [[]|e]]; [|done].
    cbn. by destruct (dispersions_ est).
  - unfold ReScale_transform. rewrite method_of_body.
    destruct (_check_data X) as [Xc|e]; [|done].
    rewrite ReScale_transform_body_eq.
    destruct (target_keys encode_domains Xc) as [y_enc|e]; [|done].
    cbv zeta. by destruct (TLStretch_fit Xc y_enc _) as [est [[]|e]].
  - unfold ReScale_fit_transform. rewrite method_of_body.
    destruct (_check_data X) as [Xc|e]; [|done].
    rewrite ReScale_fit_transform_body_eq.
    by destruct (encode_domains Xc y _).
Qed.

(** X7.  No method writes the parameters of the constructor: after any
    sequence of [fit], [transform] and [fit_transform] calls, returning or
    raising, [domains] and [metric] are what the instance was constructed
    with. *)
Theorem calls_keep_parameters (h : list call) (rc : ReCenter) (rs : ReScale) :
  let rc' := ReCenter_calls encode_domains TLCenter_fit TLCenter_fit_transform
               h rc in
  let rs' := ReScale_calls encode_domains TLStretch_fit TLStretch_transform
               TLStretch_fit_transform h rs in
  rc_domains rc' = rc_domains rc ∧ rc_metric rc' = rc_metric rc ∧
  rs_domains rs' = rs_domains rs ∧ rs_metric rs' = rs_metric rs.
Proof.
  cbv zeta. split_and!.
  - revert rc. induction h as [|c h IH]; intros rc; [done|].
    cbn [ReCenter_calls foldl]. unfold ReCenter_calls in IH.
    by rewrite IH, ReCenter_call_domains.
  - apply ReCenter_calls_metric.
  - revert rs. induction h as [|c h IH]; intros rs; [done|].
    cbn [ReScale_calls foldl]. unfold ReScale_calls in IH.
    by rewrite IH, ReScale_call_domains.
  - apply ReScale_calls_metric.
Qed.

(** X8.  A call that fails before the estimator is constructed leaves the
    instance as it was and raises the exception met: the one of
    [_check_data], for each of the six methods, and the one of
    [encode_domains], on the keys of the training domains for [fit] and
    [fit_transform] and on the keys of the target domain for [transform]. *)
Theorem early_failure_leaves_instance
    (X : input) (y : list Z) (yt : option (list Z)) (e : exn)
    (rc : ReCenter) (rs : ReScale) :
  (_check_data X = Raise e →
   ReCenter_fit encode_domains TLCenter_fit X y rc = (rc, Raise e) ∧
   ReCenter_transform encode_domains TLCenter_fit_transform X yt rc =
     (rc, Raise e) ∧
   ReCenter_fit_transform encode_domains TLCenter_fit_transform X y rc =
     (rc, Raise e) ∧
   ReScale_fit encode_domains TLStretch_fit X y rs = (rs, Raise e) ∧
   ReScale_transform encode_domains TLStretch_fit TLStretch_transform X yt rs =
     (rs, Raise e) ∧
   ReScale_fit_transform encode_domains TLStretch_fit_transform X y rs =
     (rs, Raise e)) ∧
  (∀ Xc, _check_data X = Ok Xc →
     (encode_domains Xc y (rc_domains rc) = Raise e →
      ReCenter_fit encode_domains TLCenter_fit X y rc = (rc, Raise e) ∧
      ReCenter_fit_transform encode_domains TLCenter_fit_transform X y rc =
        (rc, Raise e)) ∧
     (encode_domains Xc y (rs_domains rs) = Raise e →
      ReScale_fit encode_domains TLStretch_fit X y rs = (rs, Raise e) ∧
      ReScale_fit_transform encode_domains TLStretch_fit_transform X y rs =
        (rs, Raise e)) ∧
     (target_keys encode_domains Xc = Raise e →
      ReCenter_transform encode_domains TLCenter_fit_transform X yt rc =
        (rc, Raise e) ∧
      ReScale_transform encode_domains TLStretch_fit TLStretch_transform
        X yt rs = (rs, Raise e))).
Proof.
  unfold ReCenter_fit, ReCenter_transform, ReCenter_fit_transform,
    ReScale_fit, ReScale_transform, ReScale_fit_transform.
  rewrite !method_of_body. split.
  - intros ->. done.
  - intros Xc ->.
    rewrite ReCenter_fit_body_eq, ReCenter_fit_transform_body_eq,
      ReCenter_transform_body_eq, ReScale_fit_body_eq,
      ReScale_fit_transform_body_eq, ReScale_transform_body_eq.
    split_and!; by intros ->.
Qed.

(** X9.  [fit] writes the stored statistics as its last step: a [fit] that
    raises, wherever it does, leaves [means_] (for ReScale, [dispersions_])
    as it was before the call, also when the estimator in [re_center_]
    ([re_scale_]) has been replaced already. *)
Theorem failed_fit_keeps_statistics
    (X : input) (y : list Z) (e : exn) (rc : ReCenter) (rs : ReScale) :
  (outcome (ReCenter_fit encode_domains TLCenter_fit X y rc) = Raise e →
   means_ (state_after (ReCenter_fit encode_domains TLCenter_fit X y rc)) =
   means_ rc) ∧
  (outcome (ReScale_fit encode_domains TLStretch_fit X y rs) = Raise e →
   rs_dispersions_
     (state_after (ReScale_fit encode_domains TLStretch_fit X y rs)) =
   rs_dispersions_ rs).
Proof.
  unfold ReCenter_fit, ReScale_fit. rewrite !method_of_body.
  destruct (_check_data X) as [Xc|e0]; [|done].
  rewrite ReCenter_fit_body_eq, ReScale_fit_body_eq. split.
  - destruct (encode_domains Xc y (rc_domains rc)) as [y_enc|e1]; [|done].
    cbv zeta. destruct (TLCenter_fit Xc y_enc _) as [est [[]|e1]]; [|done].
    cbn. by destruct (recenter_ est).
  - destruct (encode_domains Xc y (rs_domains rs)) as [y_enc|e1]; [|done].
    cbv zeta. destruct (TLStretch_fit Xc y_enc _) as [est [[]|e1]]; [|done].
    cbn. by destruct (dispersions_ est).
Qed.

End MethodProperties.

Lemma calls_keep_parameters_witness :
  rc_domains
    (ReCenter_calls OneChannel.encode_domains OneChannel.TLCenter_fit
       OneChannel.TLCenter_fit_transform
       [CallFit Examples.train Examples.train_y;
        CallTransform Examples.unseen None;
        CallFitTransform Examples.bare_matrix []]
       (new_ReCenter Examples.train_domains Examples.euclid)) =
  Examples.train_domains.
Proof.
  exact (proj1 (calls_keep_parameters
                  OneChannel.encode_domains OneChannel.TLCenter_fit
                  OneChannel.TLCenter_fit_transform OneChannel.TLStretch_fit
                  OneChannel.TLStretch_transform
                  OneChannel.TLStretch_fit_transform
                  [CallFit Examples.train Examples.train_y;
                   CallTransform Examples.unseen None;
                   CallFitTransform Examples.bare_matrix []]
                  (new_ReCenter Examples.train_domains Examples.euclid)
                  (new_ReScale Examples.train_domains Examples.euclid))).
Defined.

Lemma early_failure_leaves_instance_witness :
  _check_data Examples.bare_matrix = Raise AttributeError ∧
  OneChannel.transform Examples.bare_matrix None
    (new_ReCenter Examples.train_domains Examples.euclid) =
    (new_ReCenter Examples.train_domains Examples.euclid,
     Raise AttributeError) ∧
  OneChannel.encode_domains (Some Examples.train_stack) [0%Z]
    Examples.train_domains = Raise ValueError ∧
  OneChannel.scale_fit Examples.train [0%Z]
    (new_ReScale Examples.train_domains Examples.euclid) =
    (new_ReScale Examples.train_domains Examples.euclid, Raise ValueError).
Proof.
  split; [reflexivity|]. split.
  - destruct (early_failure_leaves_instance
                OneChannel.encode_domains OneChannel.TLCenter_fit
                OneChannel.TLCenter_fit_transform OneChannel.TLStretch_fit
                OneChannel.TLStretch_transform
                OneChannel.TLStretch_fit_transform
                Examples.bare_matrix [] None AttributeError
                (new_ReCenter Examples.train_domains Examples.euclid)
                (new_ReScale Examples.train_domains Examples.euclid))
      as [Hcheck _].
    exact (proj1 (proj2 (Hcheck eq_refl))).
  - split; [reflexivity|].
    destruct (early_failure_leaves_instance
                OneChannel.encode_domains OneChannel.TLCenter_fit
                OneChannel.TLCenter_fit_transform OneChannel.TLStretch_fit
                OneChannel.TLStretch_transform
                OneChannel.TLStretch_fit_transform
                Examples.train [0%Z] None ValueError
                (new_ReCenter Examples.train_domains Examples.euclid)
                (new_ReScale Examples.train_domains Examples.euclid))
      as [_ Hkeys].
    destruct (Hkeys (Some Examples.train_stack) eq_refl) as [_ [Hscale _]].
    exact (proj1 (Hscale eq_refl)).
Defined.

Lemma failed_fit_keeps_statistics_witness :
  outcome
    (OneChannel.fit Examples.train [0%Z]
       (state_after
          (OneChannel.fit Examples.train Examples.train_y
             (new_ReCenter Examples.train_domains Examples.euclid)))) =
    Raise ValueError ∧
  means_
    (state_after
       (OneChannel.fit Examples.train [0%Z]
          (state_after
             (OneChannel.fit Examples.train Examples.train_y
                (new_ReCenter Examples.train_domains Examples.euclid))))) =
  means_
    (state_after
       (OneChannel.fit Examples.train Examples.train_y
          (new_ReCenter Examples.train_domains Examples.euclid))).
Proof.
  split; [reflexivity|].
  exact (proj1 (failed_fit_keeps_statistics
                  OneChannel.encode_domains OneChannel.TLCenter_fit
                  OneChannel.TLStretch_fit
                  Examples.train [0%Z] ValueError
                  (state_after
                     (OneChannel.fit Examples.train Examples.train_y
                        (new_ReCenter Examples.train_domains
                           Examples.euclid)))
                  (new_ReScale Examples.train_domains Examples.euclid))
           eq_refl).
Defined.

(** X11.  [ReCenter.transform] is [ReCenter.fit_transform] with the true
    domains and labels replaced: on an input of n samples it returns, and
    leaves in [re_center_], what [fit_transform] does on an instance whose
    domains are n copies of the target domain, called with n labels 0.  The
    [y] passed to [transform] and the domains of the instance play no part. *)
Theorem ReCenter_transform_as_fit_transform
    (encode_domains : option ndarray → list Z → list string → result (list key))
    (TLCenter_fit_transform : option ndarray → list key → method TLCenter ndarray)
    (X : input) (a : ndarray) (n : nat) (yt : option (list Z))
    (self : ReCenter) :
  _check_data X = Ok (Some a) →
  np.shape_at a 0 = Ok n →
  let placeholder :=
    mkReCenter (replicate n target_domain) (rc_metric self)
      (re_center_ self) (means_ self) in
  let r := ReCenter_transform encode_domains TLCenter_fit_transform X yt self in
  let r' := ReCenter_fit_transform encode_domains TLCenter_fit_transform
              X (replicate n 0%Z) placeholder in
  outcome r = outcome r' ∧
  re_center_ (state_after r) = re_center_ (state_after r') ∧
  means_ (state_after r) = means_ (state_after r') ∧
  rc_domains (state_after r) = rc_domains self.
Proof.
  intros Hcheck Hn. cbv zeta.
  unfold ReCenter_transform, ReCenter_fit_transform.
  rewrite !method_of_body, Hcheck.
  rewrite ReCenter_transform_body_eq, ReCenter_fit_transform_body_eq.
  unfold target_keys, shape0. cbn [attr mbind result_bind].
  rewrite Hn. cbn [mbind result_bind rc_domains rc_metric].
  by destruct (encode_domains (Some a) _ _) as [y_enc|e].
Qed.

Lemma ReCenter_transform_as_fit_transform_witness :
  _check_data Examples.unseen = Ok (Some Examples.unseen_stack) ∧
  np.shape_at Examples.unseen_stack 0 = Ok 2 ∧
  outcome (OneChannel.transform Examples.unseen None
             (new_ReCenter Examples.train_domains Examples.euclid)) =
  outcome (OneChannel.fit_transform Examples.unseen [0%Z; 0%Z]
             (new_ReCenter [target_domain; target_domain] Examples.euclid)).
Proof.
  split; [reflexivity|]. split; [reflexivity|].
  exact (proj1 (ReCenter_transform_as_fit_transform
                  OneChannel.encode_domains OneChannel.TLCenter_fit_transform
                  Examples.unseen Examples.unseen_stack 2 None
                  (new_ReCenter Examples.train_domains Examples.euclid)
                  eq_refl eq_refl)).
Defined.

(** ** Further properties with the estimators of pyRiemann *)

(** With one domain only, re-centering each sample by the mean of its domain
    is re-centering every sample by the mean of all. *)
Lemma recentered_single_domain
    (mean_covariance : string → list ndarray → ndarray)
    (congruence : ndarray → ndarray → ndarray)
    (metric d : string) (mats : list ndarray) :
  (λ p : string * ndarray,
     congruence
       (mean_covariance metric
          (pyriemann.select p.1 (replicate (length mats) d) mats)) p.2)
    <$> zip (replicate (length mats) d) mats =
  congruence (mean_covariance metric mats) <$> mats.
Proof.
  transitivity ((λ p : string * ndarray,
                   congruence (mean_covariance metric mats) p.2)
                  <$> zip (replicate (length mats) d) mats).
  - apply list_fmap_ext. intros i [d' X0] Hi. cbn [fst snd].
    apply list_elem_of_lookup_2, elem_of_zip_l, elem_of_replicate_inv in Hi.
    subst d'. by rewrite select_replicate.
  - transitivity (congruence (mean_covariance metric mats)
                    <$> (zip (replicate (length mats) d) mats).*2).
    + by rewrite <- list_fmap_compose.
    + rewrite snd_zip; [done|]. by rewrite length_replicate.
Qed.

(** What [ReCenter.fit] does with the mean estimator of pyRiemann. *)
Lemma ReCenter_fit_pyriemann
    (mean_covariance : string → list ndarray → ndarray)
    (X : input) (y : list Z) (self : ReCenter)
    (a : ndarray) (mats : list ndarray) :
  _check_data X = Ok (Some a) →
  np.items a = Ok mats →
  np.shape_at a 0 = Ok (length (rc_domains self)) →
  length y = length (rc_domains self) →
  length mats = length (rc_domains self) →
  ReCenter_fit pyriemann.encode_domains
    (pyriemann.TLCenter_fit mean_covariance) X y self =
  (mkReCenter (rc_domains self) (rc_metric self)
     (Some (mkTLCenter target_domain (rc_metric self)
              (Some (pyriemann.per_domain
                       (mean_covariance (rc_metric self))
                       (rc_domains self) mats))))
     (Some (pyriemann.per_domain (mean_covariance (rc_metric self))
              (rc_domains self) mats)), Ok ()).
Proof.
  intros Hcheck Hitems Hshape Hy Hlen.
  assert (length mats = length (zip (rc_domains self) y)) as Hzip
    by (rewrite length_zip; lia).
  unfold ReCenter_fit.
  rewrite method_of_body, Hcheck, ReCenter_fit_body_eq.
  rewrite (encode_domains_Ok a y _ Hshape Hy). cbv zeta.
  rewrite (TLCenter_fit_Ok mean_covariance a mats _ _ Hitems Hzip).
  by rewrite (decode_domains_zip _ _ Hy).
Qed.

(** X12.  With the mean estimator of pyRiemann, [ReCenter.fit] on n samples,
    n labels and the n domains of the instance returns and stores one mean
    per domain present: [means_] maps each domain of the instance to the mean
    of the samples tagged with it, and holds no other key; the estimator in
    [re_center_] holds the same means. *)
Theorem ReCenter_fit_stores_domain_means
    (mean_covariance : string → list ndarray → ndarray)
    (X : input) (y : list Z) (self : ReCenter)
    (a : ndarray) (mats : list ndarray) :
  _check_data X = Ok (Some a) →
  np.items a = Ok mats →
  np.shape_at a 0 = Ok (length (rc_domains self)) →
  length y = length (rc_domains self) →
  length mats = length (rc_domains self) →
  let r := ReCenter_fit pyriemann.encode_domains
             (pyriemann.TLCenter_fit mean_covariance) X y self in
  outcome r = Ok () ∧
  ∃ m, means_ (state_after r) = Some m ∧
       re_center_ (state_after r) ≫= recenter_ = Some m ∧
       ∀ d, m !! d =
            if bool_decide (d ∈ rc_domains self)
            then Some (mean_covariance (rc_metric self)
                         (pyriemann.select d (rc_domains self) mats))
            else None.
Proof.
  intros Hcheck Hitems Hshape Hy Hlen. cbv zeta.
  rewrite (ReCenter_fit_pyriemann mean_covariance X y self a mats)
    by done.
  split; [done|]. eexists. split; [done|]. split; [done|].
  intros d. case_bool_decide as Hd.
  - by apply per_domain_lookup.
  - by apply per_domain_absent.
Qed.

Lemma ReCenter_fit_stores_domain_means_witness :
  _check_data Examples.train = Ok (Some Examples.train_stack) ∧
  outcome (OneChannel.fit Examples.train Examples.train_y
             (new_ReCenter Examples.train_domains Examples.euclid)) = Ok () ∧
  ∃ m, means_
         (state_after
            (OneChannel.fit Examples.train Examples.train_y
               (new_ReCenter Examples.train_domains Examples.euclid))) =
       Some m ∧
       m !! "A"%string = Some (OneChannel.mat 3) ∧
       m !! target_domain = None.
Proof.
  split; [reflexivity|].
  destruct (ReCenter_fit_stores_domain_means OneChannel.mean_covariance
              Examples.train Examples.train_y
              (new_ReCenter Examples.train_domains Examples.euclid)
              Examples.train_stack Examples.train_mats
              eq_refl eq_refl eq_refl eq_refl eq_refl)
    as [Hok (m & Hm & _ & Hlookup)].
  split; [exact Hok|]. exists m. split; [exact Hm|]. split.
  - rewrite (Hlookup "A"%string). reflexivity.
  - rewrite (Hlookup target_domain). reflexivity.
Defined.

(** X13.  With the mean estimator of pyRiemann and training data of one
    domain only, [fit_transform] and [transform] return the same array: every
    sample re-centered by the mean of all the samples.  The two differ on
    several domains only. *)
Theorem single_domain_fit_transform_is_transform
    (mean_covariance : string → list ndarray → ndarray)
    (congruence : ndarray → ndarray → ndarray)
    (X : input) (y : list Z) (yt : option (list Z)) (self : ReCenter)
    (a : ndarray) (mats : list ndarray) (d : string) :
  _check_data X = Ok (Some a) →
  np.items a = Ok mats →
  np.shape_at a 0 = Ok (length mats) →
  length y = length mats →
  mats ≠ [] →
  rc_domains self = replicate (length mats) d →
  let fit_transform :=
    pyriemann.TLCenter_fit_transform mean_covariance congruence in
  outcome (ReCenter_fit_transform pyriemann.encode_domains fit_transform
             X y self) =
    Ok (pyriemann.like a
          (congruence (mean_covariance (rc_metric self) mats) <$> mats)) ∧
  outcome (ReCenter_transform pyriemann.encode_domains fit_transform
             X yt self) =
  outcome (ReCenter_fit_transform pyriemann.encode_domains fit_transform
             X y self).
Proof.
  intros Hcheck Hitems Hshape Hy Hne Hdom. cbv zeta.
  assert (length (rc_domains self) = length mats) as Hlen
    by (by rewrite Hdom, length_replicate).
  assert (length mats = length (zip (rc_domains self) y)) as Hzip
    by (rewrite length_zip; lia).
  assert (outcome
            (ReCenter_fit_transform pyriemann.encode_domains
               (pyriemann.TLCenter_fit_transform mean_covariance congruence)
               X y self) =
          Ok (pyriemann.like a
                (congruence (mean_covariance (rc_metric self) mats) <$> mats)))
    as Hfused.
  { unfold ReCenter_fit_transform.
    rewrite method_of_body, Hcheck, ReCenter_fit_transform_body_eq.
    rewrite (encode_domains_Ok a y (rc_domains self)) by congruence.
    cbv zeta.
    rewrite (TLCenter_fit_transform_Ok mean_covariance congruence a mats _ _
               Hitems Hzip).
    rewrite decode_domains_zip by congruence.
    cbn [outcome snd tlc_metric new_TLCenter]. rewrite Hdom.
    by rewrite recentered_single_domain. }
  split; [exact Hfused|].
  rewrite Hfused, ReCenter_transform_outcome, Hcheck.
  cbn [mbind result_bind].
  rewrite (target_keys_pyriemann a (length mats) Hshape).
  cbn [mbind result_bind].
  by rewrite (TLCenter_fit_transform_target mean_covariance congruence
                a mats (rc_metric self) Hitems Hne).
Qed.

Lemma single_domain_fit_transform_is_transform_witness :
  _check_data Examples.unseen = Ok (Some Examples.unseen_stack) ∧
  outcome (OneChannel.transform Examples.unseen None
             (new_ReCenter ["A"%string; "A"%string] Examples.euclid)) =
  outcome (OneChannel.fit_transform Examples.unseen [0%Z; 1%Z]
             (new_ReCenter ["A"%string; "A"%string] Examples.euclid)).
Proof.
  split; [reflexivity|].
  refine (proj2 (single_domain_fit_transform_is_transform
                   OneChannel.mean_covariance OneChannel.congruence
                   Examples.unseen [0%Z; 1%Z] None
                   (new_ReCenter ["A"%string; "A"%string] Examples.euclid)
                   Examples.unseen_stack Examples.unseen_mats "A"
                   eq_refl eq_refl eq_refl eq_refl _ eq_refl)).
  discriminate.
Defined.

(** X14.  With the stretch estimator of pyRiemann, [ReScale.transform] does
    not take the data for centered: it rescales every matrix of [X] around
    the mean of [X], which the estimator recomputes, by the dispersion of [X]
    around that mean.  The estimator left in [re_scale_] holds that one
    dispersion, under the target domain; [dispersions_] is not written. *)
Theorem ReScale_transform_rescales_around_own_mean
    (mean_covariance : string → list ndarray → ndarray)
    (eye : nat → ndarray)
    (distance_sq : string → ndarray → ndarray → Q)
    (stretch : string → ndarray → Q → ndarray → ndarray)
    (X : input) (yt : option (list Z)) (self : ReScale)
    (a : ndarray) (mats : list ndarray) (first : ndarray) (n_dim : nat) :
  _check_data X = Ok (Some a) →
  np.items a = Ok mats →
  np.shape_at a 0 = Ok (length mats) →
  mats !! 0 = Some first →
  np.shape_at first 1 = Ok n_dim →
  let M := mean_covariance (rs_metric self) mats in
  let d := pyriemann.dispersion distance_sq (rs_metric self) M mats in
  let r := ReScale_transform pyriemann.encode_domains
             (pyriemann.TLStretch_fit mean_covariance eye distance_sq)
             (pyriemann.TLStretch_transform stretch) X yt self in
  outcome r =
    Ok (pyriemann.like a (stretch (rs_metric self) M d <$> mats)) ∧
  re_scale_ (state_after r) ≫= dispersions_ = Some {[ target_domain := d ]} ∧
  rs_dispersions_ (state_after r) = rs_dispersions_ self.
Proof.
  intros Hcheck Hitems Hshape Hfirst Hdim. cbv zeta.
  assert (mats ≠ []) as Hne by (by intros ->).
  unfold ReScale_transform.
  rewrite method_of_body, Hcheck, ReScale_transform_body_eq.
  rewrite (target_keys_pyriemann a (length mats) Hshape). cbv zeta.
  rewrite (TLStretch_fit_Ok mean_covariance eye distance_sq a mats _ _
             first n_dim Hitems (eq_sym (length_replicate _ _)) Hfirst Hdim).
  rewrite decode_domains_replicate.
  cbn [tls_centered_data tls_metric new_TLStretch pyriemann.center].
  rewrite !per_domain_replicate by done.
  cbn [outcome state_after fst snd].
  unfold pyriemann.TLStretch_transform. run_method.
  cbn [dispersions_ tls_means tls_target_domain tls_metric pyriemann.set_fitted
       new_TLStretch attr].
  unfold pyriemann.lookup_domain. rewrite !lookup_singleton_eq.
  cbn [pyriemann.subscriptable]. rewrite Hitems.
  cbn [fst snd rs_dispersions_ set_re_scale_ re_scale_ mbind option_bind
       dispersions_].
  done.
Qed.

Lemma ReScale_transform_rescales_around_own_mean_witness :
  _check_data Examples.unseen = Ok (Some Examples.unseen_stack) ∧
  np.items Examples.unseen_stack = Ok Examples.unseen_mats ∧
  outcome (OneChannel.scale_transform Examples.unseen None
             (new_ReScale Examples.train_domains Examples.euclid)) =
    Ok (OneChannel.stack1 [1%Q; 3%Q]) ∧
  re_scale_
    (state_after
       (OneChannel.scale_transform Examples.unseen None
          (new_ReScale Examples.train_domains Examples.euclid)))
    ≫= dispersions_ = Some {[ target_domain := 1%Q ]}.
Proof.
  split; [reflexivity|]. split; [reflexivity|].
  destruct (ReScale_transform_rescales_around_own_mean
              OneChannel.mean_covariance OneChannel.eye OneChannel.distance_sq
              OneChannel.stretch Examples.unseen None
              (new_ReScale Examples.train_domains Examples.euclid)
              Examples.unseen_stack Examples.unseen_mats (OneChannel.mat 1) 1
              eq_refl eq_refl eq_refl eq_refl eq_refl) as [Hout [Hdisp _]].
  split.
  - etransitivity; [exact Hout|]. by vm_compute.
  - etransitivity; [exact Hdisp|]. by vm_compute.
Defined.

(** Rescaling with the fitted statistics: every sample by the mean and the
    dispersion of its own domain. *)
Lemma stretch_each_per_domain
    (stretch : string → ndarray → Q → ndarray → ndarray)
    (mean : list ndarray → ndarray) (disp : list ndarray → Q)
    (metric : string) (domains : list string) (mats : list ndarray) :
  pyriemann.stretch_each stretch metric
    (pyriemann.per_domain mean domains mats)
    (pyriemann.per_domain disp domains mats) domains mats =
  Ok ((λ p, stretch metric
              (mean (pyriemann.select p.1 domains mats))
              (disp (pyriemann.select p.1 domains mats)) p.2)
        <$> zip domains mats).
Proof.
  unfold pyriemann.stretch_each. apply mapM_Ok. intros [d X0] Hin.
  apply elem_of_zip_l in Hin. unfold pyriemann.lookup_domain. cbn [fst snd].
  by rewrite !per_domain_lookup.
Qed.

(** X15.  With the stretch estimator of pyRiemann, [ReScale.fit_transform] on
    n samples, n labels and the n domains of the instance rescales each
    sample around the mean of its own domain by the dispersion of that domain
    around its mean.  The estimator left in [re_scale_] holds these
    dispersions; [dispersions_] of the instance is not written. *)
Theorem ReScale_fit_transform_rescales_each_domain
    (mean_covariance : string → list ndarray → ndarray)
    (eye : nat → ndarray)
    (distance_sq : string → ndarray → ndarray → Q)
    (stretch : string → ndarray → Q → ndarray → ndarray)
    (X : input) (y : list Z) (self : ReScale)
    (a : ndarray) (mats : list ndarray) (first : ndarray) (n_dim : nat) :
  _check_data X = Ok (Some a) →
  np.items a = Ok mats →
  np.shape_at a 0 = Ok (length (rs_domains self)) →
  length y = length (rs_domains self) →
  length mats = length (rs_domains self) →
  mats !! 0 = Some first →
  np.shape_at first 1 = Ok n_dim →
  let mean := mean_covariance (rs_metric self) in
  let disp := λ g, pyriemann.dispersion distance_sq (rs_metric self)
                     (mean g) g in
  let r := ReScale_fit_transform pyriemann.encode_domains
             (pyriemann.TLStretch_fit_transform mean_covariance eye
                distance_sq stretch) X y self in
  outcome r =
    Ok (pyriemann.like a
          ((λ p, let g := pyriemann.select p.1 (rs_domains self) mats in
                 stretch (rs_metric self) (mean g) (disp g) p.2)
             <$> zip (rs_domains self) mats)) ∧
  re_scale_ (state_after r) ≫= dispersions_ =
    Some (pyriemann.per_domain disp (rs_domains self) mats) ∧
  rs_dispersions_ (state_after r) = rs_dispersions_ self.
Proof.
  intros Hcheck Hitems Hshape Hy Hlen Hfirst Hdim. cbv zeta.
  assert (length mats = length (zip (rs_domains self) y)) as Hzip
    by (rewrite length_zip; lia).
  unfold ReScale_fit_transform.
  rewrite method_of_body, Hcheck, ReScale_fit_transform_body_eq.
  rewrite (encode_domains_Ok a y _ Hshape Hy). cbv zeta.
  unfold pyriemann.TLStretch_fit_transform. run_method.
  rewrite (TLStretch_fit_Ok mean_covariance eye distance_sq a mats _ _
             first n_dim Hitems Hzip Hfirst Hdim).
  rewrite (decode_domains_zip _ _ Hy).
  cbn [tls_centered_data tls_metric new_TLStretch pyriemann.center
       dispersions_ tls_means pyriemann.set_fitted attr
       pyriemann.subscriptable].
  rewrite (samples_Ok a mats _ Hitems Hzip).
  rewrite (stretch_each_per_domain stretch
             (mean_covariance (rs_metric self))
             (λ g, pyriemann.dispersion distance_sq (rs_metric self)
                     (mean_covariance (rs_metric self) g) g)).
  done.
Qed.

Lemma ReScale_fit_transform_rescales_each_domain_witness :
  _check_data Examples.train = Ok (Some Examples.train_stack) ∧
  np.items Examples.train_stack = Ok Examples.train_mats ∧
  outcome (OneChannel.scale_fit_transform Examples.train Examples.train_y
             (new_ReScale Examples.train_domains Examples.euclid)) =
    Ok (OneChannel.stack1 [2%Q; 4%Q; 7%Q; 9%Q]) ∧
  rs_dispersions_
    (state_after
       (OneChannel.scale_fit_transform Examples.train Examples.train_y
          (new_ReScale Examples.train_domains Examples.euclid))) = None.
Proof.
  split; [reflexivity|]. split; [reflexivity|].
  destruct (ReScale_fit_transform_rescales_each_domain
              OneChannel.mean_covariance OneChannel.eye OneChannel.distance_sq
              OneChannel.stretch Examples.train Examples.train_y
              (new_ReScale Examples.train_domains Examples.euclid)
              Examples.train_stack Examples.train_mats (OneChannel.mat 2) 1
              eq_refl eq_refl eq_refl eq_refl eq_refl eq_refl eq_refl)
    as [Hout [_ Hdisp]].
  split.
  - etransitivity; [exact Hout|]. by vm_compute.
  - exact Hdisp.
Defined.
